(** * P10 LED panel firmware: the display-mode scheduler

    A shallow embedding of the two sketches of the repository,

    - [Bus]    : [src/main.cpp], the Modbus RTU variant (one 32x16 panel);
    - [Simple] : [src/main_simple.cpp], the stand-alone variant (two panels).

    Both sketches are [void] functions over global variables that talk to
    the panel driver.  A function is therefore embedded as an [Action]: a
    function from the globals to the new globals and the list of driver
    calls it issued, in program order. *)

From Stdlib Require Import ZArith Lia Bool List Ascii String.
From stdpp Require Import gmap strings.
Import ListNotations.

Local Open Scope string_scope.
Local Open Scope list_scope.
Local Open Scope Z_scope.

(** ** Machine arithmetic of the target (ESP8266: 32-bit [int] and
     [unsigned long], 16-bit Modbus registers) *)

Module Arduino.

Definition ULONG_MOD : Z := 2 ^ 32.

(** Conversion to [unsigned long] / [unsigned int]. *)
Definition to_ulong (z : Z) : Z := z mod ULONG_MOD.

(** [a - b] on [unsigned long]. *)
Definition ulong_sub (a b : Z) : Z := (a - b) mod ULONG_MOD.

(** Conversion to [int]. *)
Definition to_int (z : Z) : Z := (z + 2 ^ 31) mod ULONG_MOD - 2 ^ 31.

(** Conversion to [uint16_t]. *)
Definition to_uint16 (z : Z) : Z := z mod 65536.

(** The cast [(int16_t)v]. *)
Definition to_int16 (z : Z) : Z := (z + 32768) mod 65536 - 32768.

Definition digit_char (d : Z) : ascii := ascii_of_nat (48 + Z.to_nat d).

(** Decimal digits of a non-negative number, most significant first;
    [fuel] bounds the number of digits (ten are enough for 32 bits). *)
Fixpoint utoa (fuel : nat) (n : Z) (acc : string) : string :=
  match fuel with
  | O => acc
  | S fuel' =>
      let acc' := String (digit_char (n mod 10)) acc in
      if n / 10 =? 0 then acc' else utoa fuel' (n / 10) acc'
  end.

(** [String(int)]: the decimal rendering of a signed value. *)
Definition String_of_int (v : Z) : string :=
  if v <? 0 then String "-"%char (utoa 11 (- v) EmptyString)
  else utoa 11 v EmptyString.

(** [s.length()] *)
Definition strlen (s : string) : Z := Z.of_nat (String.length s).

(** The number that a string of decimal digits denotes, and [s.toInt()],
    which reads an optional minus sign before the digits.  The sketches do
    not call it; it states what [String_of_int] prints. *)
Fixpoint digits_value (s : string) (acc : Z) : Z :=
  match s with
  | EmptyString => acc
  | String c s' => digits_value s' (10 * acc + (Z.of_nat (nat_of_ascii c) - 48))
  end.

Definition starts_with_digit (s : string) : bool :=
  match s with
  | EmptyString => false
  | String c _ => (48 <=? nat_of_ascii c)%nat && (nat_of_ascii c <=? 57)%nat
  end.

Definition toInt (s : string) : Z :=
  match s with
  | EmptyString => 0
  | String c s' =>
      if Ascii.eqb c "-"%char then - digits_value s' 0 else digits_value s 0
  end.

End Arduino.

Import Arduino.

(** ** Calls to the outside world (panel driver, serial port, delay) *)

Inductive Cmd : Type :=
| ClearScreen
| DrawString (x y : Z) (text : string)
| ScanDisplayBySPI
| Delay (ms : Z)
| SerialPrintln (line : string).

(** ** Actions: [void] functions over the globals [S] *)

Section Actions.
Context {S : Type}.

Definition Action : Type := S -> S * list Cmd.

Definition skip : Action := fun s => (s, []).

(** A driver call whose arguments are read from the globals. *)
Definition emit (c : S -> Cmd) : Action := fun s => (s, [c s]).

(** An assignment to the globals. *)
Definition assign (f : S -> S) : Action := fun s => (f s, []).

Definition seq (a b : Action) : Action :=
  fun s => let (s1, o1) := a s in
           let (s2, o2) := b s1 in
           (s2, o1 ++ o2).

Definition ifelse (c : S -> bool) (a b : Action) : Action :=
  fun s => if c s then a s else b s.

Definition when (c : S -> bool) (a : Action) : Action := ifelse c a skip.

Definition state_after (a : Action) (s : S) : S := fst (a s).
Definition output_of (a : Action) (s : S) : list Cmd := snd (a s).
End Actions.

Arguments Action : clear implicits.

Declare Scope action_scope.
Delimit Scope action_scope with act.
Notation "a ;; b" := (seq a b) : action_scope.
Local Open Scope action_scope.

(** The draw calls of an output, as (x, y, text). *)
Fixpoint draws (out : list Cmd) : list (Z * Z * string) :=
  match out with
  | [] => []
  | DrawString x y t :: out' => (x, y, t) :: draws out'
  | _ :: out' => draws out'
  end.

(** ** The bus variant: [src/main.cpp] *)

Module Bus.

(** Modelled from the spec: the bus library's transaction result, which
    the sketch only compares with [Modbus::EX_SUCCESS] (the spec calls the
    result codes "opaque pass/fail"). *)
Inductive ResultCode : Type :=
| EX_SUCCESS
| EX_FAILURE (code : Z).

Definition is_success (e : ResultCode) : bool :=
  match e with EX_SUCCESS => true | EX_FAILURE _ => false end.

(** Modelled from the spec: the bus library's holding registers, "four
    addressable integer registers", as a finite map from the register
    index to a 16-bit value.  [addHreg] creates a register holding 0,
    [Hreg_set] ([mb.Hreg(i, v)]) stores into an existing register and
    [Hreg] ([mb.Hreg(i)]) reads one, an absent register reading as 0. *)
Definition addHreg (i : Z) (m : gmap Z Z) : gmap Z Z :=
  match m !! i with
  | Some _ => m
  | None => <[i := 0]> m
  end.

Definition Hreg_set (i v : Z) (m : gmap Z Z) : gmap Z Z :=
  match m !! i with
  | Some _ => <[i := to_uint16 v]> m
  | None => m
  end.

Definition Hreg (m : gmap Z Z) (i : Z) : Z :=
  to_uint16 (default 0 (m !! i)).

(** The globals of the sketch ([welcomeText] is never assigned). *)
Record State : Type := mkState {
  mb : gmap Z Z;
  displayMode : Z;
  scrollSpeed : Z;
  scrollX : Z;
  lastScrollTime : Z;
  priceValue : Z;
  timeValue : Z
}.

Definition welcomeText : string := "Welcome".
Definition TEXT_POS_X : Z := 2.
Definition TEXT_POS_Y : Z := 4.

Definition set_mb v s :=
  mkState v (displayMode s) (scrollSpeed s) (scrollX s) (lastScrollTime s)
          (priceValue s) (timeValue s).
Definition set_displayMode v s :=
  mkState (mb s) v (scrollSpeed s) (scrollX s) (lastScrollTime s)
          (priceValue s) (timeValue s).
Definition set_scrollSpeed v s :=
  mkState (mb s) (displayMode s) v (scrollX s) (lastScrollTime s)
          (priceValue s) (timeValue s).
Definition set_scrollX v s :=
  mkState (mb s) (displayMode s) (scrollSpeed s) v (lastScrollTime s)
          (priceValue s) (timeValue s).
Definition set_lastScrollTime v s :=
  mkState (mb s) (displayMode s) (scrollSpeed s) (scrollX s) v
          (priceValue s) (timeValue s).
Definition set_priceValue v s :=
  mkState (mb s) (displayMode s) (scrollSpeed s) (scrollX s)
          (lastScrollTime s) v (timeValue s).
Definition set_timeValue v s :=
  mkState (mb s) (displayMode s) (scrollSpeed s) (scrollX s)
          (lastScrollTime s) (priceValue s) v.

(** The initialisers of the globals. *)
Definition globals : State :=
  mkState ∅ 1 100 32 0 0 0.

(** [updateDisplayFromModbus] (lines 71-90). *)
Definition updateDisplayFromModbus : Action State :=
  assign (fun s => set_displayMode (Hreg (mb s) 0) s) ;;
  when (fun s => (50 <=? Hreg (mb s) 1) && (Hreg (mb s) 1 <=? 500))
       (assign (fun s => set_scrollSpeed (Hreg (mb s) 1) s)) ;;
  assign (fun s => set_priceValue (to_int16 (Hreg (mb s) 2)) s) ;;
  assign (fun s => set_timeValue (to_int16 (Hreg (mb s) 3)) s) ;;
  when (fun s => displayMode s =? 1)
       (assign (set_scrollX 32)).

(** [modbusCallback] (lines 93-99); its result is always [true]. *)
Definition modbusCallback (event : ResultCode) : Action State :=
  when (fun _ => is_success event) updateDisplayFromModbus.

Definition MODBUS_SLAVE_ID : Z := 1.

(** [setup] (lines 101-130). *)
Definition setup : Action State :=
  emit (fun _ => SerialPrintln "P10 LED Panel + Modbus RTU Test Başladı") ;;
  emit (fun _ => ClearScreen) ;;
  assign (fun s => set_mb (addHreg 3 (addHreg 2 (addHreg 1 (addHreg 0 (mb s))))) s) ;;
  assign (fun s => set_mb (Hreg_set 0 1 (mb s)) s) ;;
  assign (fun s => set_mb (Hreg_set 1 100 (mb s)) s) ;;
  assign (fun s => set_mb (Hreg_set 2 1500 (mb s)) s) ;;
  assign (fun s => set_mb (Hreg_set 3 60 (mb s)) s) ;;
  updateDisplayFromModbus ;;
  emit (fun _ => SerialPrintln ("Panel hazır, Modbus RTU Slave ID: "
                                +:+ String_of_int MODBUS_SLAVE_ID)) ;;
  emit (fun _ => SerialPrintln "Baud Rate: 9600, Parity: None, Stop Bits: 1").

(** What one call of [mb.task()] does, seen from the sketch: the library
    stores the registers a master wrote ([MasterWrite]), and it may report
    a transaction to [modbusCallback] ([Completed]).  The sketch never calls
    the callback itself and has no statement that registers it, so when it
    runs is left to the environment. *)
Inductive BusAction : Type :=
| MasterWrite (reg value : Z)
| Completed (event : ResultCode).

Definition bus_action (b : BusAction) : Action State :=
  match b with
  | MasterWrite reg value => assign (fun s => set_mb (Hreg_set reg value (mb s)) s)
  | Completed event => modbusCallback event
  end.

Fixpoint mb_task (task : list BusAction) : Action State :=
  match task with
  | [] => skip
  | b :: task' => bus_action b ;; mb_task task'
  end.

(** Lines 137-140 of [loop]: the globals are reloaded from the registers. *)
Definition reload_registers : Action State :=
  assign (fun s => set_displayMode (Hreg (mb s) 0) s) ;;
  assign (fun s => set_scrollSpeed (Hreg (mb s) 1) s) ;;
  assign (fun s => set_priceValue (to_int16 (Hreg (mb s) 2)) s) ;;
  assign (fun s => set_timeValue (to_int16 (Hreg (mb s) 3)) s).

(** Line 149: [millis() - lastScrollTime >= (unsigned long)scrollSpeed],
    [now] being the value of [millis()]. *)
Definition scroll_due (now : Z) (s : State) : bool :=
  to_ulong (scrollSpeed s) <=? ulong_sub now (lastScrollTime s).

(** Lines 149-157: the body of [case 1].  [now] is the value of the first
    [millis()] and [stamp] of the second. *)
Definition welcome_scroll (now stamp : Z) : Action State :=
  when (scroll_due now)
    (emit (fun _ => ClearScreen) ;;
     emit (fun s => DrawString (scrollX s) TEXT_POS_Y welcomeText) ;;
     assign (fun s => set_scrollX (scrollX s - 1) s) ;;
     when (fun s => scrollX s <? - (strlen welcomeText * 6))
          (assign (set_scrollX 32)) ;;
     assign (set_lastScrollTime stamp)).

(** Lines 143-182: the [switch] on [displayMode]. *)
Definition dispatch (now stamp : Z) : Action State :=
  fun s =>
    match displayMode s with
    | 0 => emit (fun _ => ClearScreen) s
    | 1 => welcome_scroll now stamp s
    | 2 =>
        (emit (fun _ => ClearScreen) ;;
         emit (fun s => DrawString TEXT_POS_X TEXT_POS_Y
                          (String_of_int (priceValue s) +:+ " TL"))) s
    | 3 =>
        (emit (fun _ => ClearScreen) ;;
         emit (fun s => DrawString TEXT_POS_X TEXT_POS_Y
                          (String_of_int (timeValue s) +:+ " sn"))) s
    | _ =>
        (emit (fun _ => ClearScreen) ;;
         emit (fun _ => DrawString 2 4 "MODE ERROR") ;;
         emit (fun _ => Delay 1000)) s
    end.

(** [loop] (lines 132-185). *)
Definition loop (task : list BusAction) (now stamp : Z) : Action State :=
  mb_task task ;;
  reload_registers ;;
  dispatch now stamp ;;
  emit (fun _ => Delay 10).

(** The states the sketch can be in at the top of [loop]. *)
Inductive Reachable : State -> Prop :=
| reach_setup : Reachable (state_after setup globals)
| reach_loop s task now stamp :
    Reachable s -> Reachable (state_after (loop task now stamp) s).

(** The registers 0 to 3 have been added. *)
Definition registers_exist (m : gmap Z Z) : Prop :=
  forall i, 0 <= i < 4 -> is_Some (m !! i).

(** The scroll position lies between the wrap threshold and the right
    edge of the panel. *)
Definition scroll_inv (s : State) : Prop :=
  - (strlen welcomeText * 6) <= scrollX s <= 32.

(** The registers after the writes a master made during a task. *)
Fixpoint master_writes (task : list BusAction) (m : gmap Z Z) : gmap Z Z :=
  match task with
  | [] => m
  | MasterWrite reg value :: task' => master_writes task' (Hreg_set reg value m)
  | Completed _ :: task' => master_writes task' m
  end.


End Bus.

(** ** The stand-alone variant: [src/main_simple.cpp] *)

Module Simple.

Definition DISPLAYS_WIDE : Z := 2.
Definition DISPLAYS_HIGH : Z := 1.

(** Modelled from the spec: the render adapter's [width()] and [height()],
    both [int]; the sketch's comments give 32x16 pixels per panel. *)
Definition dmd_width : Z := 32 * DISPLAYS_WIDE.
Definition dmd_height : Z := 16 * DISPLAYS_HIGH.

(** The globals of the sketch that are assigned somewhere, and the
    function-local [static int cycleCount] of [loop].  [currentText] is
    never read. *)
Record State : Type := mkState {
  isScrolling : bool;
  lastUpdate : Z;
  textChangeTimer : Z;
  scrollPosition : Z;
  textMode : Z;
  currentStaticIndex : Z;
  cycleCount : Z
}.

Definition scrollText : string :=
  "*** PlatformIO ESP8266 P10 LED Panel Projesi *** ".

Definition staticTexts : list string :=
  ["MERHABA"; "DUNYA!"; "ESP8266"; "P10 LED"; "PANEL"; "PROJESI"].
Definition staticTextCount : Z := 6.

(** [staticTexts[i]] *)
Definition staticTexts_at (i : Z) : string :=
  default "" (staticTexts !! Z.to_nat i).

Definition set_isScrolling v s :=
  mkState v (lastUpdate s) (textChangeTimer s) (scrollPosition s)
          (textMode s) (currentStaticIndex s) (cycleCount s).
Definition set_lastUpdate v s :=
  mkState (isScrolling s) v (textChangeTimer s) (scrollPosition s)
          (textMode s) (currentStaticIndex s) (cycleCount s).
Definition set_textChangeTimer v s :=
  mkState (isScrolling s) (lastUpdate s) v (scrollPosition s)
          (textMode s) (currentStaticIndex s) (cycleCount s).
Definition set_scrollPosition v s :=
  mkState (isScrolling s) (lastUpdate s) (textChangeTimer s) v
          (textMode s) (currentStaticIndex s) (cycleCount s).
Definition set_textMode v s :=
  mkState (isScrolling s) (lastUpdate s) (textChangeTimer s)
          (scrollPosition s) v (currentStaticIndex s) (cycleCount s).
Definition set_currentStaticIndex v s :=
  mkState (isScrolling s) (lastUpdate s) (textChangeTimer s)
          (scrollPosition s) (textMode s) v (cycleCount s).
Definition set_cycleCount v s :=
  mkState (isScrolling s) (lastUpdate s) (textChangeTimer s)
          (scrollPosition s) (textMode s) (currentStaticIndex s) v.

Definition globals : State := mkState false 0 0 0 0 0 0.

(** [setup] (lines 62-82). *)
Definition setup : Action State :=
  emit (fun _ => SerialPrintln "") ;;
  emit (fun _ => SerialPrintln "P10 LED Panel - Sabit Yazı Versiyonu Başlatılıyor...") ;;
  emit (fun _ => ClearScreen) ;;
  emit (fun _ => DrawString 0 0 "BASLIYOR...") ;;
  emit (fun _ => Delay 2000) ;;
  emit (fun _ => SerialPrintln "P10 LED Panel hazır!") ;;
  emit (fun _ => SerialPrintln "Gösterilecek sabit yazılar:") ;;
  fun s => (s, map (fun t => SerialPrintln ("- " +:+ t)) staticTexts).

(** The coordinates computed by [showStaticText] (lines 142-147):
    [int] arithmetic, the division truncating towards zero. *)
Definition static_x (text : string) : Z :=
  let textWidth := to_int (to_ulong (strlen text * 6)) in
  let x := Z.quot (dmd_width - textWidth) 2 in
  if x <? 0 then 0 else x.

Definition static_y : Z :=
  let y := Z.quot (dmd_height - 7) 2 in
  if y <? 0 then 0 else y.

(** [showStaticText] (lines 136-155). *)
Definition showStaticText : Action State :=
  fun s =>
    let text := staticTexts_at (currentStaticIndex s) in
    (emit (fun _ => ClearScreen) ;;
     emit (fun _ => DrawString (static_x text) static_y text) ;;
     assign (fun s => set_currentStaticIndex
                        (Z.rem (currentStaticIndex s + 1) staticTextCount) s) ;;
     emit (fun _ => SerialPrintln ("Sabit yazı gösteriliyor: " +:+ text))) s.

(** [startScrolling] (lines 157-162). *)
Definition startScrolling : Action State :=
  assign (set_isScrolling true) ;;
  assign (set_scrollPosition dmd_width) ;;
  emit (fun _ => ClearScreen) ;;
  emit (fun _ => SerialPrintln ("Kayan yazı başlatıldı: " +:+ scrollText)).

(** [updateScrolling] (lines 164-178). *)
Definition updateScrolling : Action State :=
  emit (fun _ => ClearScreen) ;;
  emit (fun s => DrawString (scrollPosition s) 4 scrollText) ;;
  assign (fun s => set_scrollPosition (scrollPosition s - 2) s) ;;
  when (fun s => scrollPosition s <? - to_int (to_ulong (strlen scrollText * 6)))
       (assign (set_scrollPosition dmd_width)).

(** The string built by [showTime] (lines 184-191) from the value of
    [millis()]. *)
Definition timeStr (millis : Z) : string :=
  let seconds := millis / 1000 in
  let hours := to_int ((seconds / 3600) mod 24) in
  let minutes := to_int ((seconds / 60) mod 60) in
  let secs := to_int (seconds mod 60) in
  String_of_int hours +:+ ":" +:+
  (if minutes <? 10 then "0" else "") +:+ String_of_int minutes +:+ ":" +:+
  (if secs <? 10 then "0" else "") +:+ String_of_int secs.

(** [showTime] (lines 180-198); the subtraction in [x] is unsigned, since
    [length()] is. *)
Definition showTime (millis : Z) : Action State :=
  let x := to_int (to_ulong (dmd_width - strlen (timeStr millis) * 6) / 2) in
  emit (fun _ => ClearScreen) ;;
  emit (fun _ => DrawString x 4 (timeStr millis)) ;;
  emit (fun _ => SerialPrintln ("Saat gösteriliyor: " +:+ timeStr millis)).

(** [getCurrentDisplayText] (lines 200-211). *)
Definition getCurrentDisplayText (s : State) : string :=
  match textMode s with
  | 0 => staticTexts_at (currentStaticIndex s)
  | 1 => scrollText
  | 2 => "SAAT"
  | _ => "BILINMEYEN"
  end.

(** Line 88: [currentTime - textChangeTimer >= 3000]. *)
Definition dwell_due (currentTime : Z) (s : State) : bool :=
  3000 <=? ulong_sub currentTime (textChangeTimer s).

(** Line 119: [isScrolling && (currentTime - lastUpdate >= 100)]. *)
Definition scroll_due (currentTime : Z) (s : State) : bool :=
  isScrolling s && (100 <=? ulong_sub currentTime (lastUpdate s)).

(** Lines 88-116 of [loop]: the dwell timer.  [currentTime] is the
    [millis()] read at the top of [loop], [millis] the one read by
    [showTime]. *)
Definition dwell_block (currentTime millis : Z) : Action State :=
  when (dwell_due currentTime)
    (assign (set_textChangeTimer currentTime) ;;
     (fun s =>
        match textMode s with
        | 0 => showStaticText s
        | 1 => when (fun s => negb (isScrolling s)) startScrolling s
        | 2 => showTime millis s
        | _ => skip s
        end) ;;
     assign (fun s => set_cycleCount (cycleCount s + 1) s) ;;
     when (fun s => 5 <=? cycleCount s)
       (assign (set_cycleCount 0) ;;
        assign (fun s => set_textMode (Z.rem (textMode s + 1) 3) s) ;;
        assign (set_isScrolling false) ;;
        assign (set_scrollPosition 0))).

(** Lines 119-122 of [loop]: the scroll timer. *)
Definition scroll_block (currentTime : Z) : Action State :=
  when (scroll_due currentTime)
    (assign (set_lastUpdate currentTime) ;;
     updateScrolling).

(** [loop] (lines 84-134). *)
Definition loop (currentTime millis : Z) : Action State :=
  dwell_block currentTime millis ;;
  scroll_block currentTime ;;
  emit (fun _ => ScanDisplayBySPI) ;;
  when (fun _ => currentTime mod 5000 <? 50)
    (emit (fun s => SerialPrintln ("Aktif mod: " +:+ String_of_int (textMode s)
                                   +:+ " | Yazı: " +:+ getCurrentDisplayText s))) ;;
  emit (fun _ => Delay 10).

(** The states the sketch can be in at the top of [loop]. *)
Inductive Reachable : State -> Prop :=
| reach_setup : Reachable (state_after setup globals)
| reach_loop s currentTime millis :
    Reachable s -> Reachable (state_after (loop currentTime millis) s).

(** What holds of the globals in every reachable state: the counters
    stay in range, and while the text scrolls the mode is 1 and the
    position lies between the wrap threshold and the right edge. *)
Definition inv (s : State) : Prop :=
  0 <= cycleCount s < 5 /\ 0 <= textMode s < 3 /\
  0 <= currentStaticIndex s < staticTextCount /\
  (isScrolling s = true ->
   textMode s = 1 /\
   - to_int (to_ulong (strlen scrollText * 6)) <= scrollPosition s <= dmd_width).

(** Successive passes of [loop] at the given clock readings. *)
Fixpoint run (times : list Z) (s : State) : State :=
  match times with
  | [] => s
  | t :: times' => run times' (state_after (loop t t) s)
  end.

(** The clock readings of [n] passes taken every [period] ms, the first
    one [period] ms after the clock started. *)
Definition polled (period : Z) (n : nat) : list Z :=
  map (fun k => to_ulong (period * Z.of_nat k)) (List.seq 1 n).

End Simple.

(** * Properties *)

(** ** Sequencing *)

Section ActionFacts.
Context {S : Type}.
Implicit Types (a b : Action S) (s : S).

Lemma state_after_seq a b s :
  state_after (a ;; b) s = state_after b (state_after a s).
Proof.
  unfold state_after, seq. destruct (a s) as [s1 o1]. simpl.
  destruct (b s1); reflexivity.
Qed.

Lemma output_of_seq a b s :
  output_of (a ;; b) s = output_of a s ++ output_of b (state_after a s).
Proof.
  unfold output_of, state_after, seq. destruct (a s) as [s1 o1]. simpl.
  destruct (b s1); reflexivity.
Qed.

Lemma action_eta a s : a s = (state_after a s, output_of a s).
Proof. unfold state_after, output_of. destruct (a s); reflexivity. Qed.

Lemma state_after_when_true c a s :
  c s = true -> state_after (when c a) s = state_after a s.
Proof. unfold state_after, when, ifelse. intros ->. reflexivity. Qed.

Lemma state_after_when_false c a s :
  c s = false -> state_after (when c a) s = s.
Proof. unfold state_after, when, ifelse, skip. intros ->. reflexivity. Qed.

Lemma output_of_when_true c a s :
  c s = true -> output_of (when c a) s = output_of a s.
Proof. unfold output_of, when, ifelse. intros ->. reflexivity. Qed.

Lemma output_of_when_false c a s :
  c s = false -> output_of (when c a) s = [].
Proof. unfold output_of, when, ifelse, skip. intros ->. reflexivity. Qed.
End ActionFacts.

Lemma draws_app (o1 o2 : list Cmd) : draws (o1 ++ o2) = draws o1 ++ draws o2.
Proof.
  induction o1 as [|c o1 IH]; simpl; [reflexivity|].
  destruct c; simpl; rewrite ?IH; reflexivity.
Qed.

(** Unfolds the combinators, so that an action applied to a state computes. *)
Ltac run_action :=
  unfold state_after, output_of, seq, when, ifelse, emit, assign, skip in *;
  simpl in *.

Ltac split_ifs :=
  repeat match goal with
         | |- context [if ?c then _ else _] => destruct c eqn:?; simpl in *
         end.

(** Turns the boolean tests recorded by [split_ifs] into (in)equalities. *)
Ltac to_prop :=
  repeat match goal with
         | H : (_ && _) = true |- _ => apply andb_true_iff in H; destruct H
         | H : (_ <? _) = true |- _ => apply Z.ltb_lt in H
         | H : (_ <? _) = false |- _ => apply Z.ltb_ge in H
         | H : (_ <=? _) = true |- _ => apply Z.leb_le in H
         | H : (_ <=? _) = false |- _ => apply Z.leb_gt in H
         | H : (_ =? _) = true |- _ => apply Z.eqb_eq in H
         | H : (_ =? _) = false |- _ => apply Z.eqb_neq in H
         end.

(** ** Machine arithmetic *)

Lemma to_uint16_range (z : Z) : 0 <= to_uint16 z < 65536.
Proof. unfold to_uint16. apply Z.mod_pos_bound. lia. Qed.

Lemma to_int16_high (v : Z) : 32768 <= v <= 65535 -> to_int16 v = v - 65536.
Proof.
  intros Hv. unfold to_int16.
  replace (v + 32768) with ((v - 32768) + 1 * 65536) by lia.
  rewrite Z.mod_add by lia. rewrite Z.mod_small by lia. lia.
Qed.

Lemma to_int16_low (v : Z) : 0 <= v < 32768 -> to_int16 v = v.
Proof. intros Hv. unfold to_int16. rewrite Z.mod_small by lia. lia. Qed.

(** [String_of_int] prints the decimal digits of its argument: reading the
    string back gives the number. *)
Lemma digit_char_value (d : Z) :
  0 <= d < 10 -> Z.of_nat (nat_of_ascii (digit_char d)) - 48 = d.
Proof.
  intros Hd. unfold digit_char.
  rewrite nat_ascii_embedding by lia. lia.
Qed.

Lemma utoa_value (fuel : nat) :
  forall (n : Z) (acc : string),
    0 <= n < 10 ^ Z.of_nat fuel ->
    digits_value (utoa fuel n acc) 0 = digits_value acc n.
Proof.
  induction fuel as [|fuel IH]; intros n acc Hn.
  - simpl in *. replace n with 0 by lia. reflexivity.
  - cbn [utoa].
    pose proof (Z.div_mod n 10 ltac:(lia)) as Hdm.
    pose proof (Z.mod_pos_bound n 10 ltac:(lia)) as Hr.
    destruct (n / 10 =? 0) eqn:Hq; to_prop.
    + cbn [digits_value]. rewrite digit_char_value by exact Hr.
      f_equal. lia.
    + rewrite IH.
      * cbn [digits_value]. rewrite digit_char_value by exact Hr.
        f_equal. lia.
      * rewrite Nat2Z.inj_succ, Z.pow_succ_r in Hn by lia.
        split; [apply Z.div_pos; lia|].
        apply Z.div_lt_upper_bound; lia.
Qed.

Lemma utoa_starts_with_digit (fuel : nat) :
  forall (n : Z) (acc : string),
    0 <= n -> fuel <> O \/ starts_with_digit acc = true ->
    starts_with_digit (utoa fuel n acc) = true.
Proof.
  induction fuel as [|fuel IH]; intros n acc Hn Hstart.
  - destruct Hstart as [Hf | Hacc]; [contradiction | exact Hacc].
  - cbn [utoa].
    assert (Hd : starts_with_digit (String (digit_char (n mod 10)) acc) = true).
    { pose proof (Z.mod_pos_bound n 10 ltac:(lia)) as Hr.
      unfold starts_with_digit, digit_char.
      rewrite nat_ascii_embedding by lia.
      apply andb_true_iff. split; apply Nat.leb_le; lia. }
    destruct (n / 10 =? 0); [exact Hd|].
    apply IH; [apply Z.div_pos; lia | right; exact Hd].
Qed.

Lemma toInt_digits (s : string) :
  starts_with_digit s = true -> toInt s = digits_value s 0.
Proof.
  destruct s as [|c s]; [discriminate|]. intros Hd. unfold toInt.
  destruct (Ascii.eqb c "-") eqn:E; [|reflexivity].
  apply Ascii.eqb_eq in E. subst c. discriminate.
Qed.

Lemma toInt_String_of_int (v : Z) :
  - 10 ^ 11 < v < 10 ^ 11 -> toInt (String_of_int v) = v.
Proof.
  intros Hv. unfold String_of_int.
  destruct (v <? 0) eqn:Hneg; to_prop.
  - unfold toInt. rewrite Ascii.eqb_refl.
    rewrite utoa_value by (simpl Z.of_nat; lia). simpl. lia.
  - rewrite toInt_digits by (apply utoa_starts_with_digit; [lia | left; discriminate]).
    rewrite utoa_value by (simpl Z.of_nat; lia). reflexivity.
Qed.

(** The elapsed time is recovered from the wrapped readings. *)
Lemma ulong_sub_elapsed (last e : Z) :
  0 <= e < 2 ^ 32 -> ulong_sub (to_ulong (last + e)) last = e.
Proof.
  intros He. unfold ulong_sub, to_ulong, ULONG_MOD.
  rewrite Zminus_mod_idemp_l.
  replace (last + e - last) with e by lia.
  apply Z.mod_small. exact He.
Qed.

(** ** The bus variant *)

Section BusFacts.
Import Bus.
Implicit Types (s : State) (task : list BusAction).

(** Case analysis on the scrutinee of [switch (displayMode)]. *)
Ltac case_mode s :=
  unfold state_after, output_of, dispatch, welcome_scroll; cbv beta;
  destruct (displayMode s) as [|[[?|?|]|[?|?|]|]|?] eqn:?.

Lemma updateDisplayFromModbus_output s :
  output_of updateDisplayFromModbus s = [].
Proof. unfold updateDisplayFromModbus. run_action. split_ifs; reflexivity. Qed.

Lemma modbusCallback_output event s : output_of (modbusCallback event) s = [].
Proof.
  destruct event; unfold modbusCallback.
  - rewrite output_of_when_true by reflexivity.
    apply updateDisplayFromModbus_output.
  - apply output_of_when_false. reflexivity.
Qed.

Lemma mb_task_output task s : output_of (mb_task task) s = [].
Proof.
  revert s. induction task as [|b task IH]; intros s; [reflexivity|].
  cbn [mb_task]. rewrite output_of_seq, IH, app_nil_r.
  destruct b; [reflexivity | apply modbusCallback_output].
Qed.

(** What [updateDisplayFromModbus] stores. *)
Lemma updateDisplayFromModbus_state s :
  let r := Hreg (mb s) in
  state_after updateDisplayFromModbus s =
  mkState (mb s) (r 0)
          (if (50 <=? r 1) && (r 1 <=? 500) then r 1 else scrollSpeed s)
          (if r 0 =? 1 then 32 else scrollX s)
          (lastScrollTime s)
          (to_int16 (r 2)) (to_int16 (r 3)).
Proof.
  unfold updateDisplayFromModbus. run_action. split_ifs; reflexivity.
Qed.

(** What lines 137-140 store. *)
Lemma reload_registers_state s :
  let r := Hreg (mb s) in
  reload_registers s =
  (mkState (mb s) (r 0) (r 1) (scrollX s) (lastScrollTime s)
           (to_int16 (r 2)) (to_int16 (r 3)), []).
Proof. reflexivity. Qed.

(** The [switch] assigns nothing but [scrollX] and [lastScrollTime]. *)
Lemma dispatch_keeps now stamp s :
  let s' := state_after (dispatch now stamp) s in
  mb s' = mb s /\ displayMode s' = displayMode s /\
  scrollSpeed s' = scrollSpeed s /\
  priceValue s' = priceValue s /\ timeValue s' = timeValue s.
Proof.
  intros s'; subst s'.
  case_mode s; run_action; split_ifs; repeat split; solve [reflexivity | assumption].
Qed.

(** The pass of [loop] as the composition of its three parts. *)
Lemma loop_state task now stamp s :
  state_after (loop task now stamp) s =
  state_after (dispatch now stamp)
    (state_after reload_registers (state_after (mb_task task) s)).
Proof.
  unfold loop. rewrite !state_after_seq. reflexivity.
Qed.

Lemma loop_output task now stamp s :
  output_of (loop task now stamp) s =
  output_of (dispatch now stamp)
    (state_after reload_registers (state_after (mb_task task) s))
  ++ [Delay 10].
Proof.
  unfold loop. rewrite !output_of_seq, mb_task_output. reflexivity.
Qed.

(** After every pass [scrollSpeed] is register 1, whatever it holds. *)
Lemma loop_scrollSpeed task now stamp s :
  scrollSpeed (state_after (loop task now stamp) s) =
  Hreg (mb (state_after (mb_task task) s)) 1.
Proof.
  rewrite loop_state.
  destruct (dispatch_keeps now stamp
              (state_after reload_registers (state_after (mb_task task) s)))
    as (_ & _ & -> & _).
  reflexivity.
Qed.

(** The default arm of the [switch]. *)
Lemma dispatch_default now stamp s :
  displayMode s <> 0 -> displayMode s <> 1 ->
  displayMode s <> 2 -> displayMode s <> 3 ->
  dispatch now stamp s =
  (s, [ClearScreen; DrawString 2 4 "MODE ERROR"; Delay 1000]).
Proof.
  intros H0 H1 H2 H3. case_mode s; try contradiction; reflexivity.
Qed.

(** The scroll arm of the [switch]. *)
Lemma dispatch_scroll now stamp s :
  displayMode s = 1 -> scroll_due now s = true ->
  dispatch now stamp s =
  (set_lastScrollTime stamp
     (set_scrollX (if scrollX s - 1 <? - (strlen welcomeText * 6)
                   then 32 else scrollX s - 1) s),
   [ClearScreen; DrawString (scrollX s) TEXT_POS_Y welcomeText]).
Proof.
  intros Hm Hd. unfold dispatch, welcome_scroll. rewrite Hm.
  run_action. rewrite Hd. split_ifs; reflexivity.
Qed.

Lemma dispatch_scroll_idle now stamp s :
  displayMode s = 1 -> scroll_due now s = false ->
  dispatch now stamp s = (s, []).
Proof.
  intros Hm Hd. unfold dispatch, welcome_scroll. rewrite Hm.
  run_action. rewrite Hd. reflexivity.
Qed.

(** [scroll_inv] holds in every reachable state. *)
Lemma bus_action_inv b s : scroll_inv s -> scroll_inv (state_after (bus_action b) s).
Proof.
  unfold scroll_inv. intros Hs. destruct b as [reg value|[|code]]; simpl.
  - exact Hs.
  - unfold modbusCallback. rewrite state_after_when_true by reflexivity.
    rewrite updateDisplayFromModbus_state. simpl.
    destruct (_ =? 1); [vm_compute; split; discriminate | exact Hs].
  - exact Hs.
Qed.

Lemma mb_task_inv task s : scroll_inv s -> scroll_inv (state_after (mb_task task) s).
Proof.
  revert s. induction task as [|b task IH]; intros s Hs; [exact Hs|].
  cbn [mb_task]. rewrite state_after_seq. apply IH, bus_action_inv, Hs.
Qed.

Lemma dispatch_inv now stamp s :
  scroll_inv s -> scroll_inv (state_after (dispatch now stamp) s).
Proof.
  unfold scroll_inv. intros Hs.
  case_mode s; run_action; split_ifs; simpl;
    change (strlen welcomeText * 6) with 42 in *; to_prop; lia.
Qed.

Lemma Reachable_scroll_inv s : Reachable s -> scroll_inv s.
Proof.
  induction 1 as [|s task now stamp _ IH].
  - vm_compute. split; discriminate.
  - rewrite loop_state. apply dispatch_inv.
    apply (mb_task_inv task) in IH. exact IH.
Qed.

Lemma dispatch_draws_scroll now stamp s :
  displayMode s = 1 ->
  draws (output_of (dispatch now stamp) s) =
  if scroll_due now s then [(scrollX s, 4, welcomeText)] else [].
Proof.
  intros Hm. destruct (scroll_due now s) eqn:Hd.
  - unfold output_of. rewrite dispatch_scroll by assumption. reflexivity.
  - unfold output_of. rewrite dispatch_scroll_idle by assumption. reflexivity.
Qed.

(** Reading the registers after a write. *)
Lemma Hreg_set_same (i v : Z) (m : gmap Z Z) :
  is_Some (m !! i) -> Hreg (Hreg_set i v m) i = to_uint16 v.
Proof.
  intros [old Hold]. unfold Hreg, Hreg_set. rewrite Hold.
  rewrite lookup_insert_eq. simpl. unfold to_uint16. apply Z.mod_mod. lia.
Qed.

Lemma Hreg_set_other (i j v : Z) (m : gmap Z Z) :
  i <> j -> Hreg (Hreg_set i v m) j = Hreg m j.
Proof.
  intros Hne. unfold Hreg, Hreg_set.
  destruct (m !! i); [|reflexivity].
  rewrite lookup_insert_ne by exact Hne. reflexivity.
Qed.

Lemma Hreg_set_keeps (i j v : Z) (m : gmap Z Z) :
  is_Some (m !! j) -> is_Some (Hreg_set i v m !! j).
Proof.
  intros Hj. unfold Hreg_set. destruct (m !! i) eqn:Hi; [|exact Hj].
  destruct (decide (i = j)) as [->|Hne].
  - rewrite lookup_insert_eq. eauto.
  - rewrite lookup_insert_ne by exact Hne. exact Hj.
Qed.

(** The callback and the [switch] leave the registers alone. *)
Lemma modbusCallback_mb event s :
  mb (state_after (modbusCallback event) s) = mb s.
Proof.
  destruct event; unfold modbusCallback.
  - rewrite state_after_when_true by reflexivity.
    rewrite updateDisplayFromModbus_state. reflexivity.
  - rewrite state_after_when_false by reflexivity. reflexivity.
Qed.

(** The four registers added by [setup] exist in every reachable state. *)
Lemma mb_task_registers task s :
  registers_exist (mb s) -> registers_exist (mb (state_after (mb_task task) s)).
Proof.
  revert s. induction task as [|b task IH]; intros s Hs; [exact Hs|].
  cbn [mb_task]. rewrite state_after_seq. apply IH.
  destruct b as [reg value | event]; cbn [bus_action].
  - intros i Hi. apply Hreg_set_keeps, Hs, Hi.
  - rewrite modbusCallback_mb. exact Hs.
Qed.

Lemma Reachable_registers s : Reachable s -> registers_exist (mb s).
Proof.
  induction 1 as [|s task now stamp _ IH].
  - intros i Hi.
    assert (i = 0 \/ i = 1 \/ i = 2 \/ i = 3) as [-> | [-> | [-> | ->]]] by lia;
      vm_compute; eauto.
  - rewrite loop_state.
    destruct (dispatch_keeps now stamp
                (state_after reload_registers (state_after (mb_task task) s)))
      as (-> & _).
    apply (mb_task_registers task), IH.
Qed.

(** Whatever 16-bit value a master writes to register 1, the pass of [loop]
    that sees it stores it as the scroll interval. *)
Lemma loop_stores_written_interval s (v now stamp : Z) :
  Reachable s -> 0 <= v < 65536 ->
  scrollSpeed
    (state_after (loop [MasterWrite 1 v; Completed EX_SUCCESS] now stamp) s) = v.
Proof.
  intros Hs Hv. rewrite loop_scrollSpeed.
  cbn [mb_task bus_action]. rewrite !state_after_seq.
  unfold skip at 1. unfold state_after at 1. cbn [fst].
  rewrite modbusCallback_mb.
  change (mb (state_after (assign _) s)) with (Hreg_set 1 v (mb s)).
  rewrite Hreg_set_same by (apply (Reachable_registers s Hs); lia).
  apply Z.mod_small. exact Hv.
Qed.

(** A successful transaction reported while register 0 holds 1 puts the
    scroll position back to the right edge and changes no register. *)
Lemma modbusCallback_success s :
  Hreg (mb s) 0 = 1 ->
  let s' := state_after (modbusCallback EX_SUCCESS) s in
  scrollX s' = 32 /\ mb s' = mb s.
Proof.
  intros Hm s'.
  assert (Hs' : s' = state_after updateDisplayFromModbus s) by reflexivity.
  rewrite updateDisplayFromModbus_state in Hs'. simpl in Hs'.
  rewrite Hm in Hs'. simpl in Hs'.
  rewrite Hs'. split; reflexivity.
Qed.

Lemma mb_task_app task1 task2 s :
  state_after (mb_task (task1 ++ task2)) s =
  state_after (mb_task task2) (state_after (mb_task task1) s).
Proof.
  revert s. induction task1 as [|b task1 IH]; intros s; [reflexivity|].
  cbn [mb_task app]. rewrite !state_after_seq. apply IH.
Qed.

Lemma dispatch_price now stamp s :
  displayMode s = 2 ->
  dispatch now stamp s =
  (s, [ClearScreen; DrawString 2 4 (String_of_int (priceValue s) +:+ " TL")]).
Proof. intros Hm. unfold dispatch. rewrite Hm. reflexivity. Qed.

Lemma dispatch_time now stamp s :
  displayMode s = 3 ->
  dispatch now stamp s =
  (s, [ClearScreen; DrawString 2 4 (String_of_int (timeValue s) +:+ " sn")]).
Proof. intros Hm. unfold dispatch. rewrite Hm. reflexivity. Qed.

End BusFacts.

(** C1 (the code departs from the claim).  The range check on the scroll
    interval is made by [updateDisplayFromModbus] only: after a master wrote
    30 to register 1 the callback keeps the stored interval at 100, but the
    same pass of [loop] reloads [scrollSpeed] from the register without the
    check, so the scroll mode runs with 30 on that pass and on every later
    one; likewise with 600. *)
Theorem C1_loop_stores_out_of_range_interval :
  let s0 := state_after Bus.setup Bus.globals in
  let write v := [Bus.MasterWrite 1 v; Bus.Completed Bus.EX_SUCCESS] in
  Bus.scrollSpeed s0 = 100 /\
  Bus.scrollSpeed (state_after (Bus.mb_task (write 30)) s0) = 100 /\
  Bus.scrollSpeed (state_after (Bus.loop (write 30) 200 200) s0) = 30 /\
  Bus.scrollSpeed (state_after (Bus.loop [] 400 400)
                     (state_after (Bus.loop (write 30) 200 200) s0)) = 30 /\
  Bus.scrollSpeed (state_after (Bus.loop (write 600) 200 200) s0) = 600.
Proof. vm_compute. repeat split; reflexivity. Qed.

(** C3.  When the mode register holds a value other than 0, 1, 2 and 3, a
    pass of [loop] issues exactly: clear the screen, draw "MODE ERROR" at
    (2, 4), wait; and the [switch] leaves every global as it was after the
    registers were reloaded (scroll position, scroll interval, price, time
    and the scroll time stamp included). *)
Theorem C3_unrecognised_mode_renders_fallback
  (s : Bus.State) (task : list Bus.BusAction) (now stamp : Z) :
  let s1 := state_after Bus.reload_registers (state_after (Bus.mb_task task) s) in
  Bus.displayMode s1 <> 0 -> Bus.displayMode s1 <> 1 ->
  Bus.displayMode s1 <> 2 -> Bus.displayMode s1 <> 3 ->
  Bus.dispatch now stamp s1 =
    (s1, [ClearScreen; DrawString 2 4 "MODE ERROR"; Delay 1000]) /\
  Bus.loop task now stamp s =
    (s1, [ClearScreen; DrawString 2 4 "MODE ERROR"; Delay 1000; Delay 10]).
Proof.
  intros s1 H0 H1 H2 H3.
  pose proof (dispatch_default now stamp s1 H0 H1 H2 H3) as Hd.
  split; [exact Hd|].
  rewrite action_eta, loop_state, loop_output. fold s1.
  unfold state_after at 1, output_of. rewrite Hd. reflexivity.
Qed.

(** C3 at the state after [setup], a master having written 7 to register 0. *)
Lemma C3_witness :
  let s := state_after Bus.setup Bus.globals in
  let task := [Bus.MasterWrite 0 7] in
  let s1 := state_after Bus.reload_registers (state_after (Bus.mb_task task) s) in
  Bus.displayMode s1 = 7 /\
  Bus.loop task 200 200 s =
    (s1, [ClearScreen; DrawString 2 4 "MODE ERROR"; Delay 1000; Delay 10]).
Proof.
  split; [vm_compute; reflexivity|].
  apply (C3_unrecognised_mode_renders_fallback
           (state_after Bus.setup Bus.globals) [Bus.MasterWrite 0 7] 200 200);
    vm_compute; discriminate.
Defined.

(** What [modbusCallback] would do if it were invoked with [EX_SUCCESS]
    while the mode register holds 1: the scroll position becomes 32 without
    any register being changed, and the next scroll step draws the text at
    the right edge. *)
Lemma modbusCallback_success_next_draw (s : Bus.State) (now stamp : Z) :
  Bus.Hreg (Bus.mb s) 0 = 1 ->
  let s' := state_after (Bus.modbusCallback Bus.EX_SUCCESS) s in
  let s1 := state_after Bus.reload_registers s' in
  Bus.scrollX s' = 32 /\ Bus.mb s' = Bus.mb s /\
  draws (output_of (Bus.dispatch now stamp) s1) =
    if Bus.scroll_due now s1 then [(32, 4, Bus.welcomeText)] else [].
Proof.
  intros Hm s' s1.
  destruct (modbusCallback_success s Hm) as (Hx & Hb). fold s' in Hx, Hb.
  split; [exact Hx | split; [exact Hb|]].
  rewrite dispatch_draws_scroll.
  - change (Bus.scrollX s1) with (Bus.scrollX s'). rewrite Hx. reflexivity.
  - unfold s1. simpl. rewrite Hb. exact Hm.
Qed.

(** C9 (the code departs from the claim).  [modbusCallback] would put the
    scroll position back to 32, but the sketch neither calls it nor hands
    it to the bus library, so a completed bus write reaches the sketch only
    through the registers.  With the text scrolled to x = 30 in welcome
    mode, a master's write of 1234 to register 2 is followed by a draw at
    30 and the position 29: the scrolling is not restarted; likewise for a
    write that changes nothing (1 to register 0). *)
Theorem C9_bus_write_does_not_restart_scroll :
  let s0 := state_after Bus.setup Bus.globals in
  let s2 := state_after (Bus.loop [] 200 200)
              (state_after (Bus.loop [] 100 100) s0) in
  Bus.Hreg (Bus.mb s2) 0 = 1 /\ Bus.scrollX s2 = 30 /\
  draws (output_of (Bus.loop [Bus.MasterWrite 2 1234] 300 300) s2)
    = [(30, 4, "Welcome")] /\
  Bus.scrollX (state_after (Bus.loop [Bus.MasterWrite 2 1234] 300 300) s2) = 29 /\
  draws (output_of (Bus.loop [Bus.MasterWrite 0 1] 300 300) s2)
    = [(30, 4, "Welcome")] /\
  Bus.scrollX (state_after (Bus.modbusCallback Bus.EX_SUCCESS) s2) = 32.
Proof. vm_compute. repeat split; reflexivity. Qed.

(** C10.  In price mode (register 0 = 2) and in time mode (register 0 = 3)
    the value of register 2, respectively 3, is drawn as a signed 16-bit
    number: a register value v with 32768 <= v <= 65535 is drawn as
    v - 65536, followed by " TL", respectively " sn". *)
Theorem C10_price_and_time_render_signed
  (s : Bus.State) (task : list Bus.BusAction) (now stamp m v : Z) :
  let regs := Bus.mb (state_after (Bus.mb_task task) s) in
  m = 2 \/ m = 3 ->
  Bus.Hreg regs 0 = m -> Bus.Hreg regs m = v -> 32768 <= v <= 65535 ->
  draws (output_of (Bus.loop task now stamp) s) =
    [(2, 4, String_of_int (v - 65536) +:+ (if m =? 2 then " TL" else " sn"))] /\
  toInt (String_of_int (v - 65536)) = v - 65536.
Proof.
  intros regs Hm H0 Hv Hrange.
  split; [|apply toInt_String_of_int; lia].
  rewrite loop_output, draws_app, app_nil_r.
  set (s1 := state_after Bus.reload_registers _).
  assert (Hmode : Bus.displayMode s1 = m) by exact H0.
  unfold output_of. destruct Hm as [-> | ->].
  - assert (Hp : Bus.priceValue s1 = to_int16 (Bus.Hreg regs 2)) by reflexivity.
    rewrite Hv, to_int16_high in Hp by exact Hrange.
    rewrite dispatch_price by exact Hmode. cbn [snd draws].
    rewrite Hp. reflexivity.
  - assert (Hp : Bus.timeValue s1 = to_int16 (Bus.Hreg regs 3)) by reflexivity.
    rewrite Hv, to_int16_high in Hp by exact Hrange.
    rewrite dispatch_time by exact Hmode. cbn [snd draws].
    rewrite Hp. reflexivity.
Qed.

(** C10 for the register value 65535, in price mode and in time mode. *)
Lemma C10_witness :
  let s := state_after Bus.setup Bus.globals in
  draws (output_of (Bus.loop [Bus.MasterWrite 0 2; Bus.MasterWrite 2 65535] 200 200) s)
    = [(2, 4, "-1 TL")] /\
  draws (output_of (Bus.loop [Bus.MasterWrite 0 3; Bus.MasterWrite 3 65535] 200 200) s)
    = [(2, 4, "-1 sn")].
Proof.
  split.
  - apply (C10_price_and_time_render_signed
             (state_after Bus.setup Bus.globals)
             [Bus.MasterWrite 0 2; Bus.MasterWrite 2 65535] 200 200 2 65535
             (or_introl eq_refl) eq_refl eq_refl ltac:(lia)).
  - apply (C10_price_and_time_render_signed
             (state_after Bus.setup Bus.globals)
             [Bus.MasterWrite 0 3; Bus.MasterWrite 3 65535] 200 200 3 65535
             (or_intror eq_refl) eq_refl eq_refl ltac:(lia)).
Defined.

(** ** The stand-alone variant *)

Section SimpleFacts.
Import Simple.
Implicit Types (s : State).

Lemma scrollText_width : to_int (to_ulong (strlen scrollText * 6)) = 294.
Proof. reflexivity. Qed.

(** A pass that is not on a dwell boundary leaves the dwell timer's part of
    the program alone. *)
Lemma dwell_block_idle currentTime millis s :
  dwell_due currentTime s = false -> dwell_block currentTime millis s = (s, []).
Proof. intros Hd. unfold dwell_block. run_action. rewrite Hd. reflexivity. Qed.

(** The globals after the dwell timer fired. *)
Lemma dwell_block_state currentTime millis s :
  dwell_due currentTime s = true ->
  state_after (dwell_block currentTime millis) s =
  let change := 5 <=? cycleCount s + 1 in
  mkState
    (if change then false
     else if textMode s =? 1 then true else isScrolling s)
    (lastUpdate s)
    currentTime
    (if change then 0
     else if (textMode s =? 1) && negb (isScrolling s) then dmd_width
          else scrollPosition s)
    (if change then Z.rem (textMode s + 1) 3 else textMode s)
    (if textMode s =? 0 then Z.rem (currentStaticIndex s + 1) staticTextCount
     else currentStaticIndex s)
    (if change then 0 else cycleCount s + 1).
Proof.
  intros Hd. unfold dwell_block. rewrite state_after_when_true by exact Hd.
  unfold showStaticText, startScrolling, showTime.
  destruct s as [scr lu tct sp tm csi cc]. run_action.
  destruct tm as [|[[?|?|]|[?|?|]|]|?]; simpl;
    destruct scr; simpl; destruct (5 <=? cc + 1); reflexivity.
Qed.

(** The draw calls of the dwell timer. *)
Lemma dwell_block_draws currentTime millis s :
  dwell_due currentTime s = true ->
  draws (output_of (dwell_block currentTime millis) s) =
  match textMode s with
  | 0 => let text := staticTexts_at (currentStaticIndex s) in
         [(static_x text, static_y, text)]
  | 2 => [(to_int (to_ulong (dmd_width - strlen (timeStr millis) * 6) / 2), 4,
           timeStr millis)]
  | _ => []
  end.
Proof.
  intros Hd. unfold dwell_block. rewrite output_of_when_true by exact Hd.
  unfold showStaticText, startScrolling, showTime.
  destruct s as [scr lu tct sp tm csi cc]. run_action.
  destruct tm as [|[[?|?|]|[?|?|]|]|?]; simpl;
    destruct scr; simpl; destruct (5 <=? cc + 1); reflexivity.
Qed.

(** The scroll timer. *)
Lemma scroll_block_due currentTime s :
  scroll_due currentTime s = true ->
  scroll_block currentTime s =
  (set_scrollPosition
     (if scrollPosition s - 2 <? - to_int (to_ulong (strlen scrollText * 6))
      then dmd_width else scrollPosition s - 2)
     (set_lastUpdate currentTime s),
   [ClearScreen; DrawString (scrollPosition s) 4 scrollText]).
Proof.
  intros Hd. unfold scroll_block, updateScrolling. run_action. rewrite Hd.
  split_ifs; reflexivity.
Qed.

Lemma scroll_block_idle currentTime s :
  scroll_due currentTime s = false -> scroll_block currentTime s = (s, []).
Proof. intros Hd. unfold scroll_block. run_action. rewrite Hd. reflexivity. Qed.

(** A pass of [loop] is the dwell timer followed by the scroll timer. *)
Lemma simple_loop_state currentTime millis s :
  state_after (loop currentTime millis) s =
  state_after (scroll_block currentTime)
    (state_after (dwell_block currentTime millis) s).
Proof.
  unfold loop. rewrite !state_after_seq.
  unfold when, ifelse. destruct (_ <? 50); reflexivity.
Qed.

Lemma simple_loop_draws currentTime millis s :
  draws (output_of (loop currentTime millis) s) =
  draws (output_of (dwell_block currentTime millis) s) ++
  draws (output_of (scroll_block currentTime)
           (state_after (dwell_block currentTime millis) s)).
Proof.
  unfold loop. rewrite !output_of_seq, !draws_app.
  unfold when, ifelse. destruct (_ <? 50); simpl; rewrite app_nil_r; reflexivity.
Qed.

(** [inv] holds in every reachable state. *)
Lemma dwell_block_inv currentTime millis s :
  inv s -> inv (state_after (dwell_block currentTime millis) s).
Proof.
  intros Hs. destruct (dwell_due currentTime s) eqn:Hd.
  - rewrite dwell_block_state by exact Hd. clear Hd.
    destruct s as [scr lu tct sp tm csi cc].
    unfold inv in *. rewrite scrollText_width in *.
    unfold staticTextCount, dmd_width, DISPLAYS_WIDE in *. simpl in *.
    destruct Hs as (Hc & Hm & Hi & Hscr).
    assert (0 <= Z.rem (tm + 1) 3 < 3) by (apply Z.rem_bound_pos; lia).
    assert (0 <= Z.rem (csi + 1) 6 < 6) by (apply Z.rem_bound_pos; lia).
    destruct (5 <=? cc + 1) eqn:Hchange, (tm =? 1) eqn:Hm1, (tm =? 0) eqn:Hm0,
      scr; simpl; to_prop;
      repeat split; intros; try lia; try discriminate;
      destruct Hscr as (? & ?); try reflexivity; lia.
  - unfold state_after. rewrite dwell_block_idle by exact Hd. exact Hs.
Qed.

Lemma scroll_block_inv currentTime s :
  inv s -> inv (state_after (scroll_block currentTime) s).
Proof.
  intros Hs. destruct (scroll_due currentTime s) eqn:Hd; unfold state_after.
  - rewrite scroll_block_due by exact Hd. clear Hd.
    destruct s as [scr lu tct sp tm csi cc].
    unfold inv in *. rewrite scrollText_width in *.
    unfold staticTextCount, dmd_width, DISPLAYS_WIDE in *. simpl in *.
    destruct Hs as (Hc & Hm & Hi & Hscr).
    split_ifs; to_prop;
      repeat split; intros; try lia;
      destruct Hscr as (? & ?); try assumption; lia.
  - rewrite scroll_block_idle by exact Hd. exact Hs.
Qed.

Lemma simple_loop_inv currentTime millis s :
  inv s -> inv (state_after (loop currentTime millis) s).
Proof.
  intros Hs. rewrite simple_loop_state.
  apply scroll_block_inv, dwell_block_inv, Hs.
Qed.

Lemma Reachable_inv s : Reachable s -> inv s.
Proof.
  induction 1 as [|s currentTime millis _ IH].
  - vm_compute. repeat split; try discriminate.
  - apply simple_loop_inv, IH.
Qed.

Lemma Reachable_run times s : Reachable s -> Reachable (run times s).
Proof.
  revert s. induction times as [|t times IH]; intros s Hs; [exact Hs|].
  simpl. apply IH, reach_loop, Hs.
Qed.

Lemma run_app times1 times2 s :
  run (times1 ++ times2) s = run times2 (run times1 s).
Proof.
  revert s. induction times1 as [|t times1 IH]; intros s; [reflexivity|].
  simpl. apply IH.
Qed.

(** The centring arithmetic of [showStaticText] on the canned strings. *)
Lemma static_x_centred (i : Z) :
  let text := staticTexts_at i in
  static_x text = Z.max 0 (Z.quot (dmd_width - 6 * strlen text) 2).
Proof.
  unfold staticTexts_at.
  destruct (Z.to_nat i) as [|[|[|[|[|[|n]]]]]]; reflexivity.
Qed.

(** While the text does not scroll, the scroll timer does nothing. *)
Lemma scroll_due_not_scrolling currentTime s :
  isScrolling s = false -> scroll_due currentTime s = false.
Proof. unfold scroll_due. intros ->. reflexivity. Qed.

End SimpleFacts.

(** C5.  [showTime] derives hours, minutes and seconds from the run time as
    (seconds/3600) mod 24, (seconds/60) mod 60 and seconds mod 60; minutes
    and seconds are padded to two digits, the hours are not.  For a run
    time of 3661 s the string drawn is "1:01:01" (H:MM:SS), centred at
    x = 11, y = 4. *)
Theorem C5_clock_string_at_3661_seconds (millis : Z) (s : Simple.State) :
  millis / 1000 = 3661 ->
  ((millis / 1000 / 3600) mod 24 = 1 /\
   (millis / 1000 / 60) mod 60 = 1 /\
   (millis / 1000) mod 60 = 1) /\
  Simple.timeStr millis = "1:01:01" /\
  draws (output_of (Simple.showTime millis) s) = [(11, 4, "1:01:01")].
Proof.
  intros Hsec.
  assert (Hstr : Simple.timeStr millis = "1:01:01").
  { unfold Simple.timeStr. rewrite Hsec. reflexivity. }
  split; [rewrite Hsec; repeat split; reflexivity|].
  split; [exact Hstr|].
  unfold Simple.showTime. rewrite Hstr. reflexivity.
Qed.

(** C5 at millis() = 3661000. *)
Lemma C5_witness :
  3661000 / 1000 = 3661 /\
  Simple.timeStr 3661000 = "1:01:01" /\
  draws (output_of (Simple.showTime 3661000) Simple.globals) = [(11, 4, "1:01:01")].
Proof.
  split; [reflexivity|].
  apply (C5_clock_string_at_3661_seconds 3661000 Simple.globals).
  reflexivity.
Defined.

(** C7.  On a dwell boundary in static-rotation mode the only draw call of
    the pass shows the current canned string at
    x = max 0 ((panelWidth - 6 * length) / 2) and
    y = max 0 ((panelHeight - 7) / 2). *)
Theorem C7_static_text_is_centred
  (s : Simple.State) (currentTime millis : Z) :
  Simple.Reachable s -> Simple.textMode s = 0 ->
  Simple.dwell_due currentTime s = true ->
  let text := Simple.staticTexts_at (Simple.currentStaticIndex s) in
  draws (output_of (Simple.loop currentTime millis) s) =
  [(Z.max 0 (Z.quot (Simple.dmd_width - 6 * strlen text) 2),
    Z.max 0 (Z.quot (Simple.dmd_height - 7) 2),
    text)].
Proof.
  intros Hreach Hmode Hdue text.
  destruct (Reachable_inv s Hreach) as (_ & _ & _ & Hscr).
  assert (Hidle : Simple.isScrolling s = false).
  { destruct (Simple.isScrolling s); [|reflexivity].
    destruct (Hscr eq_refl) as (Hm & _). rewrite Hmode in Hm. discriminate. }
  rewrite simple_loop_draws, dwell_block_draws by exact Hdue.
  rewrite Hmode. cbv zeta.
  unfold Simple.scroll_block. rewrite output_of_when_false.
  - fold text. unfold text. rewrite static_x_centred. reflexivity.
  - apply scroll_due_not_scrolling.
    rewrite dwell_block_state by exact Hdue. simpl.
    rewrite Hmode, Hidle. simpl. destruct (5 <=? _); reflexivity.
Qed.

(** C7 on the first dwell boundary: MERHABA (7 characters) at (11, 4). *)
Lemma C7_witness :
  let s := state_after Simple.setup Simple.globals in
  Simple.textMode s = 0 /\ Simple.dwell_due 3000 s = true /\
  draws (output_of (Simple.loop 3000 3000) s) = [(11, 4, "MERHABA")].
Proof.
  split; [reflexivity|]. split; [reflexivity|].
  apply (C7_static_text_is_centred (state_after Simple.setup Simple.globals) 3000 3000).
  - apply Simple.reach_setup.
  - reflexivity.
  - reflexivity.
Defined.

(** C8.  Each throttling test compares the unsigned difference between the
    clock reading and the stored time stamp with the interval: when [e] ms
    (less than 2^32) have passed since the stamp was taken, the test is
    "interval <= e", whether or not the 32-bit millisecond counter wrapped
    in between. *)
Theorem C8_throttling_uses_modular_difference
  (sb : Bus.State) (ss : Simple.State) (e : Z) :
  0 <= e < 2 ^ 32 ->
  Bus.scroll_due (to_ulong (Bus.lastScrollTime sb + e)) sb
    = (to_ulong (Bus.scrollSpeed sb) <=? e) /\
  Simple.dwell_due (to_ulong (Simple.textChangeTimer ss + e)) ss
    = (3000 <=? e) /\
  Simple.scroll_due (to_ulong (Simple.lastUpdate ss + e)) ss
    = Simple.isScrolling ss && (100 <=? e).
Proof.
  intros He.
  unfold Bus.scroll_due, Simple.dwell_due, Simple.scroll_due.
  rewrite !ulong_sub_elapsed by exact He. repeat split; reflexivity.
Qed.

(** C8 across the wrap: the stamps were taken 10 ms before the counter
    wrapped and the clock reads 100, which is 110 ms later. *)
Lemma C8_witness :
  let sb := state_after (Bus.loop [] 4294967286 4294967286)
              (state_after Bus.setup Bus.globals) in
  let ss := state_after (Simple.loop 4294967286 4294967286)
              (state_after Simple.setup Simple.globals) in
  (Bus.lastScrollTime sb = 4294967286 /\ Simple.textChangeTimer ss = 4294967286 /\
   to_ulong (4294967286 + 110) = 100) /\
  Bus.scroll_due (to_ulong (Bus.lastScrollTime sb + 110)) sb = true /\
  Simple.dwell_due (to_ulong (Simple.textChangeTimer ss + 110)) ss = false.
Proof.
  split; [vm_compute; repeat split; reflexivity|].
  pose proof (C8_throttling_uses_modular_difference
                (state_after (Bus.loop [] 4294967286 4294967286)
                   (state_after Bus.setup Bus.globals))
                (state_after (Simple.loop 4294967286 4294967286)
                   (state_after Simple.setup Simple.globals))
                110 ltac:(lia)) as (Hb & Hd & _).
  split; [rewrite Hb | rewrite Hd]; vm_compute; reflexivity.
Defined.

(** C2.  On a pass on which the scroll timer is due, the text is drawn at
    the current position, which lies between the wrap threshold
    -(6 * text length) and the panel width; the position then decreases by
    the step (1 in the bus variant, 2 in the stand-alone one), and is set to
    the panel width exactly when the decreased value is below the
    threshold, which it then passes by at most one step. *)
Theorem C2_scroll_step_and_wrap
  (sb : Bus.State) (task : list Bus.BusAction) (now stamp : Z)
  (ss : Simple.State) (currentTime millis : Z) :
  Bus.Reachable sb -> Simple.Reachable ss ->
  let b1 := state_after Bus.reload_registers (state_after (Bus.mb_task task) sb) in
  let s1 := state_after (Simple.dwell_block currentTime millis) ss in
  Bus.displayMode b1 = 1 -> Bus.scroll_due now b1 = true ->
  Simple.scroll_due currentTime s1 = true ->
  let xb := Bus.scrollX b1 in
  let wb := 6 * strlen Bus.welcomeText in
  let xs := Simple.scrollPosition s1 in
  let ws := 6 * strlen Simple.scrollText in
  (draws (output_of (Bus.loop task now stamp) sb) = [(xb, 4, Bus.welcomeText)] /\
   - wb <= xb <= 32 /\
   Bus.scrollX (state_after (Bus.loop task now stamp) sb)
     = (if xb - 1 <? - wb then 32 else xb - 1) /\
   (xb - 1 < - wb -> - wb - 1 <= xb - 1)) /\
  (draws (output_of (Simple.loop currentTime millis) ss)
     = [(xs, 4, Simple.scrollText)] /\
   - ws <= xs <= Simple.dmd_width /\
   Simple.scrollPosition (state_after (Simple.loop currentTime millis) ss)
     = (if xs - 2 <? - ws then Simple.dmd_width else xs - 2) /\
   (xs - 2 < - ws -> - ws - 2 <= xs - 2)).
Proof.
  intros Hrb Hrs b1 s1 Hmode Hdue_b Hdue_s xb wb xs ws. split.
  - (* bus variant *)
    assert (Hinv : Bus.scroll_inv b1).
    { apply (mb_task_inv task), Reachable_scroll_inv, Hrb. }
    unfold Bus.scroll_inv in Hinv.
    replace (strlen Bus.welcomeText * 6) with wb in Hinv by reflexivity.
    fold xb in Hinv.
    rewrite loop_output, loop_state, draws_app, app_nil_r. fold b1.
    unfold output_of, state_after.
    rewrite dispatch_scroll by assumption.
    split; [reflexivity|]. split; [exact Hinv|]. split; [reflexivity|]. lia.
  - (* stand-alone variant *)
    pose proof (Reachable_inv ss Hrs) as Hinv0.
    pose proof (dwell_block_inv currentTime millis ss Hinv0) as Hinv1.
    fold s1 in Hinv1.
    assert (Hscr : Simple.isScrolling s1 = true).
    { unfold Simple.scroll_due in Hdue_s.
      apply andb_true_iff in Hdue_s. apply Hdue_s. }
    destruct Hinv1 as (_ & _ & _ & Hpos).
    destruct (Hpos Hscr) as (Hm1 & Hbounds).
    rewrite scrollText_width in Hbounds.
    change (6 * strlen Simple.scrollText) with 294 in ws.
    fold xs in Hbounds.
    assert (Hdwell : draws (output_of (Simple.dwell_block currentTime millis) ss) = []).
    { destruct (Simple.dwell_due currentTime ss) eqn:Hd.
      - rewrite dwell_block_draws by exact Hd.
        assert (Hm0 : Simple.textMode ss = 1).
        { destruct Hinv0 as (_ & _ & _ & Hpos0).
          unfold s1 in Hscr. rewrite dwell_block_state in Hscr by exact Hd.
          simpl in Hscr.
          destruct (5 <=? _); [discriminate|].
          destruct (Simple.textMode ss =? 1) eqn:E; [to_prop; exact E|].
          apply Hpos0, Hscr. }
        rewrite Hm0. reflexivity.
      - unfold output_of. rewrite dwell_block_idle by exact Hd. reflexivity. }
    rewrite simple_loop_draws, simple_loop_state, Hdwell. fold s1.
    unfold output_of, state_after.
    rewrite scroll_block_due by exact Hdue_s.
    rewrite scrollText_width. fold xs. subst ws.
    split; [reflexivity|]. split; [exact Hbounds|]. split; [reflexivity|]. lia.
Qed.

(** C2 on the first scroll step of either variant. *)
Lemma C2_witness :
  let sb := state_after Bus.setup Bus.globals in
  let ss := Simple.run (Simple.polled 3000 5)
              (state_after Simple.setup Simple.globals) in
  (Simple.textMode ss = 1 /\ Simple.isScrolling ss = false) /\
  (draws (output_of (Bus.loop [] 200 200) sb) = [(32, 4, "Welcome")] /\
   Bus.scrollX (state_after (Bus.loop [] 200 200) sb) = 31) /\
  (draws (output_of (Simple.loop 18000 18000) ss) = [(64, 4, Simple.scrollText)] /\
   Simple.scrollPosition (state_after (Simple.loop 18000 18000) ss) = 62).
Proof.
  split; [vm_compute; split; reflexivity|].
  pose proof (C2_scroll_step_and_wrap
                (state_after Bus.setup Bus.globals) [] 200 200
                (Simple.run (Simple.polled 3000 5)
                   (state_after Simple.setup Simple.globals)) 18000 18000
                Bus.reach_setup
                (Reachable_run _ _ Simple.reach_setup)
                eq_refl eq_refl eq_refl) as H.
  cbv zeta in H.
  destruct H as ((Hb1 & _ & Hb2 & _) & (Hs1 & _ & Hs2 & _)).
  split; split; [exact Hb1 | exact Hb2 | exact Hs1 | exact Hs2].
Defined.

(** ** The dwell timer under regular polling *)

Section Dwell.
Import Simple.
Implicit Types (s : State).

(** The scroll timer assigns [lastUpdate] and [scrollPosition] only. *)
Lemma scroll_block_keeps currentTime s :
  let s' := state_after (scroll_block currentTime) s in
  textChangeTimer s' = textChangeTimer s /\ cycleCount s' = cycleCount s /\
  textMode s' = textMode s /\ currentStaticIndex s' = currentStaticIndex s /\
  isScrolling s' = isScrolling s.
Proof.
  intros s'. subst s'. unfold state_after.
  destruct (scroll_due currentTime s) eqn:Hd.
  - rewrite scroll_block_due by exact Hd. repeat split; reflexivity.
  - rewrite scroll_block_idle by exact Hd. repeat split; reflexivity.
Qed.

(** What a pass of [loop] does to the dwell timer, the cycle counter, the
    mode and the rotation cursor. *)
Lemma loop_control currentTime millis s :
  let s' := state_after (loop currentTime millis) s in
  let change := 5 <=? cycleCount s + 1 in
  if dwell_due currentTime s then
    textChangeTimer s' = currentTime /\
    cycleCount s' = (if change then 0 else cycleCount s + 1) /\
    textMode s' = (if change then Z.rem (textMode s + 1) 3 else textMode s) /\
    currentStaticIndex s' =
      (if textMode s =? 0
       then Z.rem (currentStaticIndex s + 1) staticTextCount
       else currentStaticIndex s)
  else
    textChangeTimer s' = textChangeTimer s /\ cycleCount s' = cycleCount s /\
    textMode s' = textMode s /\ currentStaticIndex s' = currentStaticIndex s.
Proof.
  intros s' change. subst s'. rewrite simple_loop_state.
  destruct (scroll_block_keeps currentTime
              (state_after (dwell_block currentTime millis) s))
    as (-> & -> & -> & -> & _).
  destruct (dwell_due currentTime s) eqn:Hd.
  - rewrite dwell_block_state by exact Hd. repeat split; reflexivity.
  - unfold state_after. rewrite dwell_block_idle by exact Hd.
    repeat split; reflexivity.
Qed.

Lemma div_mod_succ (a b : Z) :
  0 < b -> 0 <= a ->
  (a mod b + 1 = b -> (a + 1) / b = a / b + 1) /\
  (a mod b + 1 < b -> (a + 1) / b = a / b).
Proof.
  intros Hb Ha.
  pose proof (Z.div_mod a b ltac:(lia)) as Hdm.
  pose proof (Z.mod_pos_bound a b Hb) as Hr.
  split; intros Hcase; symmetry.
  - apply (Z.div_unique (a + 1) b (a / b + 1) 0); lia.
  - apply (Z.div_unique (a + 1) b (a / b) (a mod b + 1)); lia.
Qed.

Lemma polled_succ period n :
  polled period (S n) =
  polled period n ++ [to_ulong (period * Z.of_nat (S n))].
Proof.
  unfold polled. rewrite seq_S, map_app. reflexivity.
Qed.

(** Polled every [period] ms with [period * q = 3000], the dwell timer
    fires on every [q]-th pass and the mode changes on every [5 * q]-th. *)
Lemma polled_run_state (period q : Z) (n : nat) :
  0 < period -> period * q = 3000 ->
  let s := run (polled period n) (state_after setup globals) in
  let dwells := Z.of_nat n / q in
  textChangeTimer s = to_ulong (3000 * dwells) /\
  cycleCount s = dwells mod 5 /\
  textMode s = (dwells / 5) mod 3.
Proof.
  intros Hp Hq. assert (Hq0 : 0 < q) by nia.
  induction n as [|n IH]; cbv zeta.
  - simpl. rewrite Zdiv_0_l. repeat split; reflexivity.
  - cbv zeta in IH. destruct IH as (Htimer & Hcount & Hmode).
    rewrite polled_succ, run_app. cbn [run].
    set (s := run (polled period n) (state_after setup globals)) in *.
    set (N := Z.of_nat n) in *.
    replace (Z.of_nat (S n)) with (N + 1) by lia.
    pose proof (Z.div_mod N q ltac:(lia)) as Hdm.
    pose proof (Z.mod_pos_bound N q Hq0) as Hr.
    assert (HN : 0 <= N) by lia.
    assert (HD : 0 <= N / q) by (apply Z.div_pos; lia).
    pose proof (Z.div_mod (N / q) 5 ltac:(lia)) as Hdm5.
    pose proof (Z.mod_pos_bound (N / q) 5 ltac:(lia)) as Hc5.
    pose proof (Z.mod_pos_bound (N / q / 5) 3 ltac:(lia)) as Hm3.
    destruct (div_mod_succ N q Hq0 HN) as (Hwrap & Hstay).
    destruct (div_mod_succ (N / q) 5 ltac:(lia) HD) as (Hwrap5 & Hstay5).
    (* the elapsed time seen by the dwell test *)
    assert (Helapsed :
              ulong_sub (to_ulong (period * (N + 1))) (textChangeTimer s)
              = period * (N mod q + 1)).
    { rewrite Htimer. unfold ulong_sub, to_ulong.
      rewrite <- Zminus_mod.
      replace (period * (N + 1) - 3000 * (N / q))
        with (period * (N mod q + 1)) by nia.
      apply Z.mod_small. unfold ULONG_MOD. split; [nia|].
      apply Z.le_lt_trans with 3000; [nia | reflexivity]. }
    pose proof (loop_control (to_ulong (period * (N + 1)))
                  (to_ulong (period * (N + 1))) s) as Hloop.
    cbv zeta in Hloop. unfold dwell_due in Hloop. rewrite Helapsed in Hloop.
    destruct (3000 <=? period * (N mod q + 1)) eqn:Hdue; to_prop.
    + (* a dwell boundary: this pass completes a period of [q] passes *)
      assert (Hfull : N mod q + 1 = q) by nia.
      destruct Hloop as (-> & -> & -> & _).
      rewrite (Hwrap Hfull), Hcount, Hmode.
      split; [f_equal; nia|].
      destruct (5 <=? (N / q) mod 5 + 1) eqn:Hchange; to_prop.
      * assert (Hfull5 : (N / q) mod 5 + 1 = 5) by lia.
        rewrite (Hwrap5 Hfull5).
        split.
        -- apply Z.mod_unique with (N / q / 5 + 1); lia.
        -- rewrite Z.rem_mod_nonneg by lia.
           rewrite Zplus_mod_idemp_l. reflexivity.
      * rewrite (Hstay5 ltac:(lia)).
        split; [|reflexivity].
        apply Z.mod_unique with (N / q / 5); lia.
    + (* no dwell boundary *)
      destruct Hloop as (-> & -> & -> & _).
      rewrite (Hstay ltac:(nia)). repeat split; assumption.
Qed.

End Dwell.

(** C6 (amended).  The mode changes, by one modulo 3, on every fifth dwell
    boundary and on no other pass, a dwell boundary being a pass on which
    at least 3000 ms have passed since the previous boundary; on a boundary
    in static-rotation mode the cursor moves to the next of the 6 strings,
    modulo 6.  When [loop] is polled at a fixed period that divides 3000 ms
    the boundaries are exactly 3000 ms apart, so that after an elapsed time
    T the mode is (T / 15000) mod 3. *)
Theorem C6_mode_changes_on_every_fifth_dwell
  (s : Simple.State) (currentTime millis : Z) (period q : Z) (n : nat) :
  Simple.Reachable s -> 0 < period -> period * q = 3000 ->
  let s' := state_after (Simple.loop currentTime millis) s in
  let sn := Simple.run (Simple.polled period n)
              (state_after Simple.setup Simple.globals) in
  (if Simple.dwell_due currentTime s then
     Simple.textChangeTimer s' = currentTime /\
     Simple.cycleCount s' = (Simple.cycleCount s + 1) mod 5 /\
     Simple.textMode s' =
       (if Simple.cycleCount s =? 4 then (Simple.textMode s + 1) mod 3
        else Simple.textMode s) /\
     Simple.currentStaticIndex s' =
       (if Simple.textMode s =? 0 then (Simple.currentStaticIndex s + 1) mod 6
        else Simple.currentStaticIndex s)
   else
     Simple.textChangeTimer s' = Simple.textChangeTimer s /\
     Simple.cycleCount s' = Simple.cycleCount s /\
     Simple.textMode s' = Simple.textMode s /\
     Simple.currentStaticIndex s' = Simple.currentStaticIndex s) /\
  Simple.textMode sn = (period * Z.of_nat n / 15000) mod 3.
Proof.
  intros Hreach Hp Hq s' sn. split.
  - pose proof (loop_control currentTime millis s) as Hloop.
    cbv zeta in Hloop. fold s' in Hloop.
    destruct (Simple.dwell_due currentTime s); [|exact Hloop].
    destruct Hloop as (Ht & Hc & Hm & Hi).
    destruct (Reachable_inv s Hreach) as (Hcr & Hmr & Hir & _).
    unfold Simple.staticTextCount in *.
    rewrite Z.rem_mod_nonneg in Hm, Hi by lia.
    split; [exact Ht|].
    destruct (Simple.cycleCount s =? 4) eqn:E4; to_prop.
    + rewrite E4 in *. simpl in Hc, Hm. repeat split; assumption.
    + destruct (5 <=? Simple.cycleCount s + 1) eqn:E5; to_prop; [lia|].
      rewrite Z.mod_small by lia. repeat split; assumption.
  - destruct (polled_run_state period q n Hp Hq) as (_ & _ & Hm).
    fold sn in Hm. rewrite Hm.
    assert (Hq0 : 0 < q) by nia.
    replace 15000 with (period * (q * 5)) by nia.
    rewrite Z.div_mul_cancel_l by lia.
    rewrite Z.div_div by lia. reflexivity.
Qed.

(** C6 on the first dwell boundary, and polled every 10 ms for 15 s. *)
Lemma C6_witness :
  let s0 := state_after Simple.setup Simple.globals in
  Simple.dwell_due 3000 s0 = true /\ 10 * 300 = 3000 /\
  Simple.textMode (state_after (Simple.loop 3000 3000) s0) = 0 /\
  Simple.currentStaticIndex (state_after (Simple.loop 3000 3000) s0) = 1 /\
  Simple.textMode (Simple.run (Simple.polled 10 1500) s0) = (10 * 1500 / 15000) mod 3.
Proof.
  split; [reflexivity|]. split; [reflexivity|].
  pose proof (C6_mode_changes_on_every_fifth_dwell
                (state_after Simple.setup Simple.globals) 3000 3000 10 300 1500
                Simple.reach_setup ltac:(lia) ltac:(lia)) as H.
  cbv zeta in H. destruct H as (Hpass & Hrun).
  change (Simple.dwell_due 3000 (state_after Simple.setup Simple.globals))
    with true in Hpass.
  destruct Hpass as (_ & _ & Hm & Hi).
  split; [exact Hm|]. split; [exact Hi | exact Hrun].
Defined.

(** C6 (as stated).  Polled every 16 ms, the dwell timer fires every 3008 ms
    (on every 188th pass): 15024 ms after the start the mode has not changed
    yet, it changes after 15040 ms and again after 30080 ms. *)
Lemma C6_counterexample :
  let s0 := state_after Simple.setup Simple.globals in
  let mode_after passes := Simple.textMode (Simple.run (Simple.polled 16 passes) s0) in
  16 * 939 = 15024 /\
  mode_after 939%nat = 0 /\ mode_after 939%nat <> (16 * 939 / 15000) mod 3 /\
  mode_after 940%nat = 1 /\
  mode_after 1879%nat = 1 /\ mode_after 1880%nat = 2 /\
  16 * 1880 - 16 * 940 = 15040.
Proof. vm_compute. repeat split; try reflexivity. discriminate. Qed.

(** C4 (amended).  In the stand-alone variant the pass that changes the
    mode (every fifth dwell boundary) stops the scrolling and sets the
    scroll position and the cycle counter to 0, but leaves the rotation
    cursor alone: the cursor only moves, modulo 6, when a canned string is
    shown.  In scroll mode nothing is drawn before the scrolling starts; it
    starts on the first dwell boundary that does not change the mode, with
    the position set to the panel width, so that the first scroll draw is
    at the panel width. *)
Theorem C4_mode_change_resets_scroll_state
  (s : Simple.State) (currentTime millis : Z)
  (e : Simple.State) (t m : Z) :
  Simple.dwell_due currentTime s = true -> 5 <= Simple.cycleCount s + 1 ->
  Simple.textMode e = 1 -> Simple.isScrolling e = false ->
  let s' := state_after (Simple.loop currentTime millis) s in
  let e' := state_after (Simple.loop t m) e in
  let starts := Simple.dwell_due t e && negb (5 <=? Simple.cycleCount e + 1) in
  let steps := 100 <=? ulong_sub t (Simple.lastUpdate e) in
  (Simple.textMode s' = Z.rem (Simple.textMode s + 1) 3 /\
   Simple.isScrolling s' = false /\ Simple.scrollPosition s' = 0 /\
   Simple.cycleCount s' = 0 /\
   Simple.currentStaticIndex s' =
     (if Simple.textMode s =? 0
      then Z.rem (Simple.currentStaticIndex s + 1) Simple.staticTextCount
      else Simple.currentStaticIndex s)) /\
  (draws (output_of (Simple.loop t m) e) =
     if starts && steps then [(Simple.dmd_width, 4, Simple.scrollText)] else []) /\
  Simple.isScrolling e' = starts /\
  (starts = true ->
   Simple.scrollPosition e' =
     if steps then Simple.dmd_width - 2 else Simple.dmd_width).
Proof.
  intros Hdue Hfifth Hmode Hidle s' e' starts steps.
  apply Z.leb_le in Hfifth.
  split.
  - (* the pass that changes the mode *)
    assert (Hd : state_after (Simple.dwell_block currentTime millis) s =
                 Simple.mkState false (Simple.lastUpdate s) currentTime 0
                   (Z.rem (Simple.textMode s + 1) 3)
                   (if Simple.textMode s =? 0
                    then Z.rem (Simple.currentStaticIndex s + 1) Simple.staticTextCount
                    else Simple.currentStaticIndex s) 0).
    { rewrite dwell_block_state by exact Hdue. cbv zeta. rewrite Hfifth. reflexivity. }
    unfold s'. rewrite simple_loop_state, Hd.
    unfold state_after. rewrite scroll_block_idle by reflexivity.
    repeat split; reflexivity.
  - (* a pass in scroll mode before the text scrolls *)
    unfold e'. rewrite simple_loop_draws, simple_loop_state.
    unfold starts, steps.
    destruct (Simple.dwell_due t e) eqn:Hd; cbn [andb].
    + rewrite dwell_block_draws, Hmode by exact Hd. cbn [app].
      rewrite dwell_block_state by exact Hd. cbv zeta.
      rewrite Hmode, Hidle. cbn [Z.eqb Pos.eqb negb andb].
      destruct (5 <=? Simple.cycleCount e + 1); cbn [negb andb].
      * unfold output_of, state_after.
        rewrite scroll_block_idle by reflexivity.
        repeat split. discriminate.
      * set (e1 := Simple.mkState _ _ _ _ _ _ _).
        assert (Hs : Simple.scroll_due t e1
                     = (100 <=? ulong_sub t (Simple.lastUpdate e))) by reflexivity.
        unfold output_of, state_after.
        destruct (100 <=? ulong_sub t (Simple.lastUpdate e)).
        -- rewrite scroll_block_due by exact Hs. repeat split.
        -- rewrite scroll_block_idle by exact Hs. repeat split.
    + assert (He1 : state_after (Simple.dwell_block t m) e = e).
      { unfold state_after. rewrite dwell_block_idle by exact Hd. reflexivity. }
      assert (Hout : output_of (Simple.dwell_block t m) e = []).
      { unfold output_of. rewrite dwell_block_idle by exact Hd. reflexivity. }
      rewrite He1, Hout. cbn [draws app].
      unfold output_of, state_after.
      rewrite scroll_block_idle by (apply scroll_due_not_scrolling, Hidle).
      cbn [fst snd draws]. split; [reflexivity|]. split; [exact Hidle|].
      discriminate.
Qed.

(** C4 on the change from static-rotation to scroll mode after 15 s (the
    cursor stays at 5), on a pass one second later (nothing is drawn, the
    text does not scroll yet) and on the dwell boundary at 18 s (the
    scrolling starts, the first draw is at 64). *)
Lemma C4_witness :
  let s0 := state_after Simple.setup Simple.globals in
  let s := Simple.run (Simple.polled 3000 4) s0 in
  let e := Simple.run (Simple.polled 3000 5) s0 in
  (Simple.cycleCount s = 4 /\ Simple.textMode s = 0 /\
   Simple.currentStaticIndex s = 4 /\
   Simple.textMode e = 1 /\ Simple.isScrolling e = false) /\
  (Simple.textMode (state_after (Simple.loop 15000 15000) s) = 1 /\
   Simple.isScrolling (state_after (Simple.loop 15000 15000) s) = false /\
   Simple.scrollPosition (state_after (Simple.loop 15000 15000) s) = 0 /\
   Simple.currentStaticIndex (state_after (Simple.loop 15000 15000) s) = 5) /\
  (draws (output_of (Simple.loop 16000 16000) e) = [] /\
   Simple.isScrolling (state_after (Simple.loop 16000 16000) e) = false) /\
  (draws (output_of (Simple.loop 18000 18000) e) = [(64, 4, Simple.scrollText)] /\
   Simple.isScrolling (state_after (Simple.loop 18000 18000) e) = true /\
   Simple.scrollPosition (state_after (Simple.loop 18000 18000) e) = 62).
Proof.
  split; [vm_compute; repeat split; reflexivity|].
  pose proof (C4_mode_change_resets_scroll_state
                (Simple.run (Simple.polled 3000 4)
                   (state_after Simple.setup Simple.globals)) 15000 15000
                (Simple.run (Simple.polled 3000 5)
                   (state_after Simple.setup Simple.globals)) 16000 16000
                eq_refl ltac:(vm_compute; discriminate) eq_refl eq_refl)
    as H16.
  pose proof (C4_mode_change_resets_scroll_state
                (Simple.run (Simple.polled 3000 4)
                   (state_after Simple.setup Simple.globals)) 15000 15000
                (Simple.run (Simple.polled 3000 5)
                   (state_after Simple.setup Simple.globals)) 18000 18000
                eq_refl ltac:(vm_compute; discriminate) eq_refl eq_refl)
    as H18.
  cbv zeta in H16, H18.
  destruct H16 as ((Hm & Hscr & Hp & _ & Hi) & Hdraw16 & Hon16 & _).
  destruct H18 as (_ & Hdraw18 & Hon18 & Hpos18).
  split; [repeat split; assumption|].
  split; [split; [exact Hdraw16 | exact Hon16]|].
  split; [exact Hdraw18|]. split; [exact Hon18|].
  exact (Hpos18 eq_refl).
Defined.

(** C4 (as stated).  The rotation cursor is not reset when the mode changes:
    it is 5 after the first visit of static-rotation mode, still 5 when
    that mode is entered again on the 15th dwell boundary, and the first
    string drawn then is the sixth one, "PROJESI". *)
Lemma C4_counterexample :
  let s0 := state_after Simple.setup Simple.globals in
  let s14 := Simple.run (Simple.polled 3000 14) s0 in
  let s15 := Simple.run (Simple.polled 3000 15) s0 in
  Simple.currentStaticIndex s0 = 0 /\
  Simple.textMode s14 = 2 /\ Simple.textMode s15 = 0 /\
  Simple.currentStaticIndex s15 = 5 /\
  draws (output_of (Simple.loop 48000 48000) s15) = [(11, 4, "PROJESI")].
Proof. vm_compute. repeat split; reflexivity. Qed.

(** A register write that is not reported to the callback leaves the scroll
    position alone: the [switch] of the bus variant does not compare the
    mode with the one of the previous pass.  Here the text has scrolled to
    x = 30 when the mode goes to 2 and back to 1. *)
Example bus_mode_write_without_callback :
  let s0 := state_after Bus.setup Bus.globals in
  let s1 := state_after (Bus.loop [] 100 100) s0 in
  let s2 := state_after (Bus.loop [] 200 200) s1 in
  let s3 := state_after (Bus.loop [Bus.MasterWrite 0 2] 300 300) s2 in
  Bus.scrollX s2 = 30 /\ Bus.displayMode s3 = 2 /\
  draws (output_of (Bus.loop [Bus.MasterWrite 0 1] 400 400) s3)
    = [(30, 4, "Welcome")].
Proof. vm_compute. repeat split; reflexivity. Qed.

(** * Further properties of the bus variant *)

Section BusCoverage.
Import Bus.
Implicit Types (s : State) (task : list BusAction).

Lemma to_int16_range (z : Z) : -32768 <= to_int16 z < 32768.
Proof.
  unfold to_int16. pose proof (Z.mod_pos_bound (z + 32768) 65536 ltac:(lia)). lia.
Qed.

Lemma Hreg_range (m : gmap Z Z) (i : Z) : 0 <= Hreg m i < 65536.
Proof. apply to_uint16_range. Qed.

(** X1.  [updateDisplayFromModbus] is idempotent: called a second time on
    unchanged registers it changes nothing, and it never talks to the
    panel. *)
Theorem X1_updateDisplayFromModbus_idempotent s :
  let s1 := state_after updateDisplayFromModbus s in
  state_after updateDisplayFromModbus s1 = s1 /\
  output_of updateDisplayFromModbus s = [].
Proof.
  intros s1. split; [|apply updateDisplayFromModbus_output].
  unfold s1. rewrite !updateDisplayFromModbus_state. cbn [mb scrollSpeed scrollX lastScrollTime].
  destruct ((50 <=? Hreg (mb s) 1) && (Hreg (mb s) 1 <=? 500));
    destruct (Hreg (mb s) 0 =? 1); reflexivity.
Qed.

(** X2.  Whatever a master writes and whatever the callback is told, the
    bus task alone never takes the stored scroll interval out of
    [50, 500]: the guarded assignment of [updateDisplayFromModbus] is the
    only one it performs. *)
Theorem X2_bus_task_keeps_interval_in_range s task :
  50 <= scrollSpeed s <= 500 ->
  50 <= scrollSpeed (state_after (mb_task task) s) <= 500.
Proof.
  revert s. induction task as [|b task IH]; intros s Hs; [exact Hs|].
  cbn [mb_task]. rewrite state_after_seq. apply IH.
  destruct b as [reg value | [|code]]; cbn [bus_action].
  - exact Hs.
  - unfold modbusCallback. rewrite state_after_when_true by reflexivity.
    rewrite updateDisplayFromModbus_state. cbn [scrollSpeed].
    destruct ((50 <=? Hreg (mb s) 1) && (Hreg (mb s) 1 <=? 500)) eqn:E;
      [to_prop; lia | exact Hs].
  - unfold modbusCallback. rewrite state_after_when_false by reflexivity.
    exact Hs.
Qed.

(** X2 after [setup], for a write of 30 and one of 600, both reported. *)
Lemma X2_witness :
  let s := state_after setup globals in
  let task := [MasterWrite 1 30; Completed EX_SUCCESS;
               MasterWrite 1 600; Completed EX_SUCCESS] in
  50 <= scrollSpeed s <= 500 /\
  50 <= scrollSpeed (state_after (mb_task task) s) <= 500.
Proof.
  split; [vm_compute; split; discriminate|].
  apply (X2_bus_task_keeps_interval_in_range (state_after setup globals)).
  vm_compute. split; discriminate.
Defined.

(** X3.  At the top of every pass the globals mirror the registers: the
    mode and the interval are registers 0 and 1, a 16-bit unsigned value
    each, and the price and the time are registers 2 and 3 read as signed
    16-bit values. *)
Theorem X3_globals_mirror_registers s :
  Reachable s ->
  (displayMode s = Hreg (mb s) 0 /\ scrollSpeed s = Hreg (mb s) 1 /\
   priceValue s = to_int16 (Hreg (mb s) 2) /\
   timeValue s = to_int16 (Hreg (mb s) 3)) /\
  (0 <= displayMode s < 65536 /\ 0 <= scrollSpeed s < 65536 /\
   -32768 <= priceValue s < 32768 /\ -32768 <= timeValue s < 32768).
Proof.
  intros Hs.
  assert (Hmirror : displayMode s = Hreg (mb s) 0 /\ scrollSpeed s = Hreg (mb s) 1 /\
                    priceValue s = to_int16 (Hreg (mb s) 2) /\
                    timeValue s = to_int16 (Hreg (mb s) 3)).
  { destruct Hs as [|s task now stamp _].
    - vm_compute. repeat split; reflexivity.
    - rewrite loop_state.
      destruct (dispatch_keeps now stamp
                  (state_after reload_registers (state_after (mb_task task) s)))
        as (-> & -> & -> & -> & ->).
      repeat split; reflexivity. }
  split; [exact Hmirror|].
  destruct Hmirror as (-> & -> & -> & ->).
  repeat split; try apply Hreg_range; apply to_int16_range.
Qed.

(** X3 after [setup] and one pass in which a master wrote 40000 to
    register 2. *)
Lemma X3_witness :
  let s := state_after (loop [MasterWrite 2 40000] 200 200)
             (state_after setup globals) in
  priceValue s = to_int16 (Hreg (mb s) 2) /\ -32768 <= priceValue s < 32768.
Proof.
  pose proof (X3_globals_mirror_registers
                (state_after (loop [MasterWrite 2 40000] 200 200)
                   (state_after setup globals))
                (reach_loop _ _ _ _ reach_setup)) as ((_ & _ & Hp & _) & (_ & _ & Hr & _)).
  split; [exact Hp | exact Hr].
Defined.

(** X4.  Outside welcome mode the [switch] assigns nothing: while the panel
    is off, shows the price, the time or the error text, the scroll
    position and the scroll time stamp stay as the bus task left them, so
    the scrolling resumes where it stopped. *)
Theorem X4_scroll_state_frozen_outside_welcome_mode s task (now stamp : Z) :
  let s0 := state_after (mb_task task) s in
  Hreg (mb s0) 0 <> 1 ->
  let s' := state_after (loop task now stamp) s in
  s' = state_after reload_registers s0 /\
  scrollX s' = scrollX s0 /\ lastScrollTime s' = lastScrollTime s0.
Proof.
  intros s0 Hmode s'.
  assert (Hs' : s' = state_after reload_registers s0).
  { unfold s'. rewrite loop_state. fold s0.
    set (s1 := state_after reload_registers s0).
    assert (Hm : displayMode s1 <> 1) by exact Hmode.
    unfold state_after at 1, dispatch.
    destruct (displayMode s1) as [|[[?|?|]|[?|?|]|]|?] eqn:E;
      try reflexivity. contradiction. }
  split; [exact Hs'|]. rewrite Hs'. split; reflexivity.
Qed.

(** X4 with the text scrolled to x = 30 and the mode switched to 2. *)
Lemma X4_witness :
  let s := state_after (loop [] 200 200)
             (state_after (loop [] 100 100) (state_after setup globals)) in
  let s' := state_after (loop [MasterWrite 0 2] 300 300) s in
  scrollX s = 30 /\ scrollX s' = 30 /\ lastScrollTime s' = 200.
Proof.
  split; [vm_compute; reflexivity|].
  pose proof (X4_scroll_state_frozen_outside_welcome_mode
                (state_after (loop [] 200 200)
                   (state_after (loop [] 100 100) (state_after setup globals)))
                [MasterWrite 0 2] 300 300
                ltac:(vm_compute; discriminate)) as (_ & Hx & Ht).
  split; [rewrite Hx | rewrite Ht]; vm_compute; reflexivity.
Defined.

(** X5.  A price or time register below 32768 is drawn as the number it
    holds, followed by " TL" or " sn": the cast to 16-bit signed leaves it
    alone, and the digits read back as the register value. *)
Theorem X5_small_registers_render_unchanged
  s task (now stamp m v : Z) :
  let regs := mb (state_after (mb_task task) s) in
  m = 2 \/ m = 3 ->
  Hreg regs 0 = m -> Hreg regs m = v -> v < 32768 ->
  draws (output_of (loop task now stamp) s) =
    [(2, 4, String_of_int v +:+ (if m =? 2 then " TL" else " sn"))] /\
  toInt (String_of_int v) = v.
Proof.
  intros regs Hm H0 Hv Hrange.
  assert (Hlow : 0 <= v < 32768).
  { pose proof (Hreg_range regs m). lia. }
  split; [|apply toInt_String_of_int; lia].
  rewrite loop_output, draws_app, app_nil_r.
  set (s1 := state_after reload_registers _).
  assert (Hmode : displayMode s1 = m) by exact H0.
  unfold output_of. destruct Hm as [-> | ->].
  - assert (Hp : priceValue s1 = to_int16 (Hreg regs 2)) by reflexivity.
    rewrite Hv, to_int16_low in Hp by exact Hlow.
    rewrite dispatch_price by exact Hmode. cbn [snd draws].
    rewrite Hp. reflexivity.
  - assert (Hp : timeValue s1 = to_int16 (Hreg regs 3)) by reflexivity.
    rewrite Hv, to_int16_low in Hp by exact Hlow.
    rewrite dispatch_time by exact Hmode. cbn [snd draws].
    rewrite Hp. reflexivity.
Qed.

(** X5 for the initial price 1500 and the initial time 60. *)
Lemma X5_witness :
  let s := state_after setup globals in
  draws (output_of (loop [MasterWrite 0 2] 200 200) s) = [(2, 4, "1500 TL")] /\
  draws (output_of (loop [MasterWrite 0 3] 200 200) s) = [(2, 4, "60 sn")].
Proof.
  split.
  - apply (X5_small_registers_render_unchanged
             (state_after setup globals) [MasterWrite 0 2] 200 200 2 1500
             (or_introl eq_refl) eq_refl eq_refl ltac:(lia)).
  - apply (X5_small_registers_render_unchanged
             (state_after setup globals) [MasterWrite 0 3] 200 200 3 60
             (or_intror eq_refl) eq_refl eq_refl ltac:(lia)).
Defined.

(** X6.  With a scroll interval of 0 in register 1 the throttle is off:
    every pass in welcome mode redraws the text and moves it, whatever the
    clock reads. *)
Theorem X6_zero_interval_scrolls_on_every_pass s task (now stamp : Z) :
  let s0 := state_after (mb_task task) s in
  Hreg (mb s0) 0 = 1 -> Hreg (mb s0) 1 = 0 ->
  draws (output_of (loop task now stamp) s) = [(scrollX s0, 4, welcomeText)] /\
  lastScrollTime (state_after (loop task now stamp) s) = stamp.
Proof.
  intros s0 Hmode Hzero.
  set (s1 := state_after reload_registers s0).
  assert (Hm : displayMode s1 = 1) by exact Hmode.
  assert (Hdue : scroll_due now s1 = true).
  { unfold scroll_due. change (scrollSpeed s1) with (Hreg (mb s0) 1).
    rewrite Hzero. apply Z.leb_le. unfold ulong_sub, ULONG_MOD.
    change (to_ulong 0) with 0. apply Z.mod_pos_bound. lia. }
  rewrite loop_output, loop_state, draws_app, app_nil_r. fold s0 s1.
  unfold output_of, state_after. rewrite dispatch_scroll by assumption.
  split; reflexivity.
Qed.

(** X6 with the clock standing still at the time of the last step. *)
Lemma X6_witness :
  let s := state_after (loop [] 100 100) (state_after setup globals) in
  lastScrollTime s = 100 /\
  draws (output_of (loop [MasterWrite 1 0] 100 100) s) = [(31, 4, "Welcome")].
Proof.
  split; [vm_compute; reflexivity|].
  apply (X6_zero_interval_scrolls_on_every_pass
           (state_after (loop [] 100 100) (state_after setup globals))
           [MasterWrite 1 0] 100 100 eq_refl eq_refl).
Defined.





(** X8.  A pass in welcome mode that comes less than the scroll interval
    after the last step does nothing to the panel: it only waits 10 ms, and
    the position and the time stamp are kept, also across a wrap of the
    millisecond counter. *)
Theorem X8_early_pass_leaves_panel_alone s (e stamp : Z) :
  Hreg (mb s) 0 = 1 -> 0 <= e < Hreg (mb s) 1 ->
  let now := to_ulong (lastScrollTime s + e) in
  output_of (loop [] now stamp) s = [Delay 10] /\
  scrollX (state_after (loop [] now stamp) s) = scrollX s /\
  lastScrollTime (state_after (loop [] now stamp) s) = lastScrollTime s.
Proof.
  intros Hmode He now.
  pose proof (Hreg_range (mb s) 1) as Hr.
  set (s1 := state_after reload_registers (state_after (mb_task []) s)).
  assert (Hm : displayMode s1 = 1) by exact Hmode.
  assert (Hidle : scroll_due now s1 = false).
  { unfold scroll_due, now.
    change (lastScrollTime s1) with (lastScrollTime s).
    change (scrollSpeed s1) with (Hreg (mb s) 1).
    rewrite ulong_sub_elapsed by lia.
    unfold to_ulong, ULONG_MOD. rewrite Z.mod_small by lia.
    apply Z.leb_gt. lia. }
  rewrite loop_output, loop_state. fold s1.
  unfold output_of, state_after. rewrite dispatch_scroll_idle by assumption.
  repeat split; reflexivity.
Qed.

(** X8 with the last step taken 10 ms before the counter wraps. *)
Lemma X8_witness :
  let s := state_after (loop [] 4294967286 4294967286) (state_after setup globals) in
  to_ulong (lastScrollTime s + 99) = 89 /\
  output_of (loop [] (to_ulong (lastScrollTime s + 99)) 89) s = [Delay 10].
Proof.
  split; [vm_compute; reflexivity|].
  apply (X8_early_pass_leaves_panel_alone
           (state_after (loop [] 4294967286 4294967286) (state_after setup globals))
           99 89 eq_refl).
  vm_compute. split; [discriminate | reflexivity].
Defined.

(** X9.  [modbusCallback] never talks to the panel and never changes a
    register or the scroll time stamp; the scroll position is kept or set
    to 32; and for any result other than success it changes nothing. *)
Theorem X9_callback_frame (event : ResultCode) s :
  let s' := state_after (modbusCallback event) s in
  output_of (modbusCallback event) s = [] /\
  mb s' = mb s /\ lastScrollTime s' = lastScrollTime s /\
  (scrollX s' = scrollX s \/ scrollX s' = 32) /\
  (event <> EX_SUCCESS -> s' = s).
Proof.
  intros s'. split; [apply modbusCallback_output|].
  split; [apply modbusCallback_mb|].
  unfold s', modbusCallback. destruct event as [|code].
  - rewrite state_after_when_true by reflexivity.
    rewrite updateDisplayFromModbus_state. cbn [lastScrollTime scrollX].
    split; [reflexivity|]. split; [|congruence].
    destruct (Hreg (mb s) 0 =? 1); [right | left]; reflexivity.
  - rewrite state_after_when_false by reflexivity.
    split; [reflexivity|]. split; [left; reflexivity | reflexivity].
Qed.

Lemma mb_task_master_writes task s :
  mb (state_after (mb_task task) s) = master_writes task (mb s).
Proof.
  revert s. induction task as [|b task IH]; intros s; [reflexivity|].
  cbn [mb_task]. rewrite state_after_seq, IH.
  destruct b as [reg value | event]; cbn [bus_action master_writes].
  - reflexivity.
  - rewrite modbusCallback_mb. reflexivity.
Qed.

(** X10.  The sketch never writes a holding register after [setup]: the
    registers after a pass of [loop] are the registers before it with the
    master's writes applied, in order; on an idle bus they are unchanged. *)
Theorem X10_registers_change_by_master_writes_only s task (now stamp : Z) :
  mb (state_after (loop task now stamp) s) = master_writes task (mb s) /\
  mb (state_after (loop [] now stamp) s) = mb s.
Proof.
  assert (H : forall task', mb (state_after (loop task' now stamp) s)
                            = master_writes task' (mb s)).
  { intros task'. rewrite loop_state.
    destruct (dispatch_keeps now stamp
                (state_after reload_registers (state_after (mb_task task') s)))
      as (-> & _).
    change (mb (state_after reload_registers (state_after (mb_task task') s)))
      with (mb (state_after (mb_task task') s)).
    apply mb_task_master_writes. }
  split; [apply H | apply (H [])].
Qed.

(** X11.  A pass of [loop] either only waits 10 ms, or clears the screen
    first; it draws at most one string, always on row 4, and always ends
    with the 10 ms wait. *)
Theorem X11_pass_output_shape s task (now stamp : Z) :
  let out := output_of (loop task now stamp) s in
  out = [Delay 10] \/
  exists rest,
    out = ClearScreen :: rest ++ [Delay 10] /\
    (length (draws rest) <= 1)%nat /\
    forall x y text, In (x, y, text) (draws rest) -> y = 4.
Proof.
  cbv zeta. rewrite loop_output.
  set (s1 := state_after reload_registers _).
  assert (Hd : output_of (dispatch now stamp) s1 = [] \/
               exists rest,
                 output_of (dispatch now stamp) s1 = ClearScreen :: rest /\
                 (length (draws rest) <= 1)%nat /\
                 forall x y text, In (x, y, text) (draws rest) -> y = 4).
  { destruct (Z.eq_dec (displayMode s1) 1) as [Hone | Hother].
    - unfold output_of. destruct (scroll_due now s1) eqn:Hdue.
      + rewrite dispatch_scroll by assumption.
        right. eexists. split; [reflexivity|]. simpl. split; [lia|].
        intros x y text [Hin | []]. inversion Hin. reflexivity.
      + rewrite dispatch_scroll_idle by assumption. left. reflexivity.
    - unfold output_of, dispatch.
      destruct (displayMode s1) as [|[[?|?|]|[?|?|]|]|?] eqn:E;
        try contradiction; run_action;
        right; eexists; (split; [reflexivity|]); simpl;
        (split; [lia|]); intros x y text Hin;
        repeat (destruct Hin as [Hin|Hin]; [inversion Hin; reflexivity|]);
        try contradiction. }
  destruct Hd as [-> | (rest & -> & Hlen & Hrow)].
  - left. reflexivity.
  - right. exists rest. split; [reflexivity|]. split; assumption.
Qed.

End BusCoverage.

(** * Further properties of the stand-alone variant *)

Section SimpleCoverage.
Import Simple.
Implicit Types (s : State).

Lemma to_int_small (z : Z) : - 2 ^ 31 <= z < 2 ^ 31 -> to_int z = z.
Proof.
  intros Hz. unfold to_int, ULONG_MOD. rewrite Z.mod_small by lia. lia.
Qed.

Lemma staticTexts_at_In (i : Z) :
  0 <= i < staticTextCount -> In (staticTexts_at i) staticTexts.
Proof.
  unfold staticTextCount. intros Hi.
  assert (i = 0 \/ i = 1 \/ i = 2 \/ i = 3 \/ i = 4 \/ i = 5)
    as [-> | [-> | [-> | [-> | [-> | ->]]]]] by lia;
    vm_compute; tauto.
Qed.

(** X12.  In every reachable state the rotation cursor is a valid index of
    [staticTexts] (the array is never read out of bounds), the mode is 0, 1
    or 2 (the [switch] of [loop], which has no default, always finds its
    case), the cycle counter is below 5, and [getCurrentDisplayText] never
    returns its fallback text. *)
Theorem X12_indices_stay_in_range s :
  Reachable s ->
  0 <= currentStaticIndex s < 6 /\
  In (staticTexts_at (currentStaticIndex s)) staticTexts /\
  (textMode s = 0 \/ textMode s = 1 \/ textMode s = 2) /\
  0 <= cycleCount s < 5 /\
  getCurrentDisplayText s <> "BILINMEYEN".
Proof.
  intros Hs. destruct (Reachable_inv s Hs) as (Hc & Hm & Hi & _).
  pose proof (staticTexts_at_In _ Hi) as Hin.
  unfold staticTextCount in Hi.
  split; [exact Hi|]. split; [exact Hin|]. split; [lia|]. split; [exact Hc|].
  unfold getCurrentDisplayText.
  assert (textMode s = 0 \/ textMode s = 1 \/ textMode s = 2)
    as [-> | [-> | ->]] by lia.
  - intros Heq. rewrite Heq in Hin. vm_compute in Hin.
    repeat (destruct Hin as [Hin | Hin]; [discriminate|]). exact Hin.
  - discriminate.
  - discriminate.
Qed.

(** X12 after sixteen dwell boundaries. *)
Lemma X12_witness :
  let s := run (polled 3000 16) (state_after setup globals) in
  0 <= currentStaticIndex s < 6 /\ 0 <= cycleCount s < 5.
Proof.
  pose proof (X12_indices_stay_in_range
                (run (polled 3000 16) (state_after setup globals))
                (Reachable_run _ _ reach_setup)) as (Hi & _ & _ & Hc & _).
  split; [exact Hi | exact Hc].
Defined.

(** X13.  A pass of [loop] draws at most one string, and the string belongs
    to the mode the pass started in: a canned string on a dwell boundary in
    mode 0, the clock on a dwell boundary in mode 2, the scroll text, at a
    position between the wrap threshold and the panel width, in mode 1. *)
Theorem X13_one_draw_per_pass_of_the_current_mode s (currentTime millis : Z) :
  Reachable s ->
  let d := draws (output_of (loop currentTime millis) s) in
  d = [] \/
  (textMode s = 0 /\ dwell_due currentTime s = true /\
   d = [(static_x (staticTexts_at (currentStaticIndex s)), static_y,
         staticTexts_at (currentStaticIndex s))]) \/
  (textMode s = 2 /\ dwell_due currentTime s = true /\
   exists x, d = [(x, 4, timeStr millis)]) \/
  (textMode s = 1 /\
   exists x, -294 <= x <= dmd_width /\ d = [(x, 4, scrollText)]).
Proof.
  intros Hs d. subst d.
  pose proof (Reachable_inv s Hs) as Hinv.
  pose proof (dwell_block_inv currentTime millis s Hinv) as Hinv1.
  destruct Hinv as (_ & Hm & _ & Hscr).
  rewrite simple_loop_draws.
  set (s1 := state_after (dwell_block currentTime millis) s) in *.
  (* the scroll timer draws only while the text scrolls, in mode 1 *)
  assert (Hscroll :
            draws (output_of (scroll_block currentTime) s1) = [] \/
            (textMode s1 = 1 /\ isScrolling s1 = true /\
             exists x, -294 <= x <= dmd_width /\
               draws (output_of (scroll_block currentTime) s1)
               = [(x, 4, scrollText)])).
  { unfold output_of. destruct (scroll_due currentTime s1) eqn:Hd.
    - right. rewrite scroll_block_due by exact Hd.
      assert (Hon : isScrolling s1 = true).
      { unfold scroll_due in Hd. apply andb_true_iff in Hd. apply Hd. }
      destruct Hinv1 as (_ & _ & _ & Hscr1).
      destruct (Hscr1 Hon) as (Hm1 & Hb). rewrite scrollText_width in Hb.
      split; [exact Hm1|]. split; [exact Hon|].
      exists (scrollPosition s1). split; [exact Hb | reflexivity].
    - left. rewrite scroll_block_idle by exact Hd. reflexivity. }
  destruct (dwell_due currentTime s) eqn:Hdue.
  - (* a dwell boundary *)
    rewrite dwell_block_draws by exact Hdue.
    assert (Hs1 : isScrolling s1 = true -> textMode s = 1).
    { unfold s1. rewrite dwell_block_state by exact Hdue. cbn [isScrolling].
      destruct (5 <=? cycleCount s + 1); [discriminate|].
      destruct (textMode s =? 1) eqn:E; [to_prop; auto | exact (fun H => proj1 (Hscr H))]. }
    assert (textMode s = 0 \/ textMode s = 1 \/ textMode s = 2)
      as [H0 | [H1 | H2]] by lia.
    + right. left. rewrite H0. cbv zeta.
      destruct Hscroll as [-> | (_ & Hon & _)].
      * repeat split; reflexivity.
      * apply Hs1 in Hon. congruence.
    + rewrite H1. cbn [app].
      destruct Hscroll as [-> | (_ & _ & x & Hx & ->)].
      * left. reflexivity.
      * right. right. right. split; [reflexivity|]. exists x. split; [exact Hx | reflexivity].
    + right. right. left. rewrite H2.
      destruct Hscroll as [-> | (_ & Hon & _)].
      * split; [reflexivity|]. split; [reflexivity|]. eexists. reflexivity.
      * apply Hs1 in Hon. congruence.
  - (* no dwell boundary *)
    assert (Hs1 : s1 = s).
    { unfold s1, state_after. rewrite dwell_block_idle by exact Hdue. reflexivity. }
    assert (Hdw : draws (output_of (dwell_block currentTime millis) s) = []).
    { unfold output_of. rewrite dwell_block_idle by exact Hdue. reflexivity. }
    rewrite Hdw. cbn [app].
    destruct Hscroll as [-> | (Hm1 & _ & x & Hx & ->)].
    + left. reflexivity.
    + right. right. right. rewrite Hs1 in Hm1.
      split; [exact Hm1|]. exists x. split; [exact Hx | reflexivity].
Qed.

(** X13 on the first dwell boundary. *)
Lemma X13_witness :
  let s := state_after setup globals in
  (length (draws (output_of (loop 3000 3000) s)) <= 1)%nat.
Proof.
  pose proof (X13_one_draw_per_pass_of_the_current_mode
                (state_after setup globals) 3000 3000 reach_setup) as H.
  cbv zeta in H |- *.
  destruct H as [-> | [(_ & _ & ->) | [(_ & _ & x & ->) | (_ & x & _ & ->)]]];
    simpl; lia.
Defined.

(** On unbounded numbers the string built by [showTime] is the same 24
    hours later. *)
Lemma timeStr_add_day (millis : Z) :
  timeStr (millis + 86400000) = timeStr millis.
Proof.
  unfold timeStr.
  replace (millis + 86400000) with (millis + 86400 * 1000) by lia.
  rewrite Z.div_add by lia.
  set (sec := millis / 1000).
  replace ((sec + 86400) / 3600) with (sec / 3600 + 24)
    by (replace (sec + 86400) with (sec + 24 * 3600) by lia;
        rewrite Z.div_add by lia; reflexivity).
  replace ((sec + 86400) / 60) with (sec / 60 + 1440)
    by (replace (sec + 86400) with (sec + 1440 * 60) by lia;
        rewrite Z.div_add by lia; reflexivity).
  replace ((sec / 3600 + 24) mod 24) with ((sec / 3600) mod 24)
    by (replace (sec / 3600 + 24) with (sec / 3600 + 1 * 24) by lia;
        rewrite Z.mod_add by lia; reflexivity).
  replace ((sec / 60 + 1440) mod 60) with ((sec / 60) mod 60)
    by (replace (sec / 60 + 1440) with (sec / 60 + 24 * 60) by lia;
        rewrite Z.mod_add by lia; reflexivity).
  replace ((sec + 86400) mod 60) with (sec mod 60)
    by (replace (sec + 86400) with (sec + 1440 * 60) by lia;
        rewrite Z.mod_add by lia; reflexivity).
  reflexivity.
Qed.

(** X14.  As long as the 32-bit millisecond counter does not wrap in
    between, the clock of [showTime] has a period of 24 hours: the reading
    of [millis()] taken 86 400 000 ms later gives the same string and the
    same drawing.  Across the wrap it does not: 2^32 ms is not a whole
    number of days, and the reading taken 24 hours after 4294967295 gives
    another string. *)
Theorem X14_clock_string_has_period_24h (millis : Z) s :
  0 <= millis -> millis + 86400000 < 2 ^ 32 ->
  let later := to_ulong (millis + 86400000) in
  (timeStr later = timeStr millis /\
   output_of (showTime later) s = output_of (showTime millis) s) /\
  (timeStr 4294967295 = "17:02:47" /\
   timeStr (to_ulong (4294967295 + 86400000)) = "23:59:59").
Proof.
  intros H0 Hlater later.
  assert (Hl : later = millis + 86400000).
  { unfold later, to_ulong, ULONG_MOD. apply Z.mod_small. lia. }
  split; [|split; reflexivity].
  rewrite Hl.
  pose proof (timeStr_add_day millis) as Hstr.
  split; [exact Hstr|]. unfold showTime. rewrite Hstr. reflexivity.
Qed.

(** X14 for the reading 3661000 (1:01:01). *)
Lemma X14_witness :
  timeStr (to_ulong (3661000 + 86400000)) = timeStr 3661000 /\
  timeStr 3661000 = "1:01:01".
Proof.
  split; [|reflexivity].
  apply (X14_clock_string_has_period_24h 3661000 globals); lia.
Defined.

Lemma length_append (a b : string) :
  String.length (a +:+ b) = (String.length a + String.length b)%nat.
Proof. induction a as [|c a IH]; simpl; [reflexivity | rewrite IH; reflexivity]. Qed.

Lemma String_of_int_one_digit (n : Z) :
  0 <= n < 10 -> String_of_int n = String (digit_char n) EmptyString.
Proof.
  intros Hn. unfold String_of_int.
  destruct (n <? 0) eqn:E; to_prop; [lia|]. cbn [utoa].
  rewrite Z.div_small, Z.mod_small by lia. reflexivity.
Qed.

Lemma String_of_int_two_digits (n : Z) :
  10 <= n < 100 ->
  String_of_int n =
  String (digit_char (n / 10)) (String (digit_char (n mod 10)) EmptyString).
Proof.
  intros Hn. unfold String_of_int.
  destruct (n <? 0) eqn:E; to_prop; [lia|]. cbn [utoa].
  assert (Hq : 1 <= n / 10 < 10).
  { split; [apply Z.div_le_lower_bound; lia | apply Z.div_lt_upper_bound; lia]. }
  destruct (n / 10 =? 0) eqn:E0; to_prop; [lia|].
  rewrite (Z.div_small (n / 10)), (Z.mod_small (n / 10)) by lia. reflexivity.
Qed.

(** A number below 60 padded as [showTime] pads minutes and seconds takes
    two characters. *)
Lemma padded_length (n : Z) :
  0 <= n < 60 ->
  Nat.add (String.length (if n <? 10 then "0" else ""))
          (String.length (String_of_int n)) = 2%nat.
Proof.
  intros Hn. destruct (n <? 10) eqn:E; to_prop.
  - rewrite String_of_int_one_digit by lia. reflexivity.
  - rewrite String_of_int_two_digits by lia. reflexivity.
Qed.

(** X15.  The clock string is H:MM:SS before 10 o'clock and HH:MM:SS from
    then on: 7 or 8 characters, so that the unsigned subtraction in
    [showTime] cannot wrap and the string is drawn at x = 11 or x = 8. *)
Theorem X15_clock_string_length (millis : Z) s :
  let hours := (millis / 1000 / 3600) mod 24 in
  String.length (timeStr millis) = (if hours <? 10 then 7%nat else 8%nat) /\
  draws (output_of (showTime millis) s) =
    [(if hours <? 10 then 11 else 8, 4, timeStr millis)].
Proof.
  intros hours.
  assert (Hlen : String.length (timeStr millis) = (if hours <? 10 then 7%nat else 8%nat)).
  { unfold timeStr. cbv zeta.
    pose proof (Z.mod_pos_bound (millis / 1000 / 3600) 24 ltac:(lia)) as Hh.
    pose proof (Z.mod_pos_bound (millis / 1000 / 60) 60 ltac:(lia)) as Hm.
    pose proof (Z.mod_pos_bound (millis / 1000) 60 ltac:(lia)) as Hsec.
    rewrite !to_int_small by lia. fold hours in Hh |- *.
    rewrite !length_append.
    pose proof (padded_length _ Hm) as Hpm.
    pose proof (padded_length _ Hsec) as Hps.
    change (String.length ":") with 1%nat.
    destruct (hours <? 10) eqn:E; to_prop.
    - rewrite (String_of_int_one_digit hours) by lia. cbn [String.length]. lia.
    - rewrite (String_of_int_two_digits hours) by lia. cbn [String.length]. lia. }
  split; [exact Hlen|].
  unfold showTime, strlen. rewrite Hlen.
  destruct (hours <? 10); reflexivity.
Qed.

Lemma updateScrolling_position s :
  scrollPosition (state_after updateScrolling s) =
  if scrollPosition s - 2 <? -294 then dmd_width else scrollPosition s - 2.
Proof.
  unfold updateScrolling. run_action. rewrite scrollText_width.
  change (- (294)) with (-294).
  destruct (scrollPosition s - 2 <? -294); reflexivity.
Qed.

(** X16.  Started at the panel width, [updateScrolling] moves the text two
    pixels per call and is back at the panel width after every 180 calls:
    after [k] calls the position is 64 - 2 * (k mod 180), so that the
    threshold -294 is reached exactly and never jumped over. *)
Theorem X16_updateScrolling_has_period_180 (k : nat) s :
  scrollPosition s = dmd_width ->
  scrollPosition (Nat.iter k (state_after updateScrolling) s)
  = 64 - 2 * (Z.of_nat k mod 180).
Proof.
  intros Hstart. induction k as [|k IH].
  - simpl. rewrite Hstart. reflexivity.
  - rewrite Nat.iter_succ, updateScrolling_position, IH.
    set (K := Z.of_nat k). replace (Z.of_nat (S k)) with (K + 1) by lia.
    pose proof (Z.div_mod K 180 ltac:(lia)) as Hdm.
    pose proof (Z.mod_pos_bound K 180 ltac:(lia)) as Hr.
    change dmd_width with 64.
    destruct (64 - 2 * (K mod 180) - 2 <? -294) eqn:E; to_prop.
    + assert (H0 : (K + 1) mod 180 = 0).
      { symmetry. apply Z.mod_unique with (K / 180 + 1); lia. }
      lia.
    + assert (H1 : (K + 1) mod 180 = K mod 180 + 1).
      { symmetry. apply Z.mod_unique with (K / 180); lia. }
      lia.
Qed.

(** X16 for the state right after [startScrolling]: 179 calls lead to the
    threshold, the 180th back to the right edge. *)
Lemma X16_witness :
  let s := state_after startScrolling (state_after setup globals) in
  scrollPosition (Nat.iter 179 (state_after updateScrolling) s) = 64 - 2 * (179 mod 180) /\
  scrollPosition (Nat.iter 180 (state_after updateScrolling) s) = 64 - 2 * (180 mod 180).
Proof.
  split.
  - apply (X16_updateScrolling_has_period_180 179
             (state_after startScrolling (state_after setup globals)) eq_refl).
  - apply (X16_updateScrolling_has_period_180 180
             (state_after startScrolling (state_after setup globals)) eq_refl).
Defined.

(** X17.  Every canned string fits on the panel, so that the clamping of
    [showStaticText] never takes effect: the text starts at
    (width - 6 * length) / 2 >= 0, leaves the same margin on its right, and
    is drawn on row 4. *)
Theorem X17_canned_strings_fit s :
  Reachable s ->
  let text := staticTexts_at (currentStaticIndex s) in
  let x := static_x text in
  0 <= x /\ 2 * x = dmd_width - 6 * strlen text /\
  dmd_width - (x + 6 * strlen text) = x /\
  static_y = 4.
Proof.
  intros Hs text x.
  destruct (Reachable_inv s Hs) as (_ & _ & Hi & _).
  unfold staticTextCount in Hi. subst x text.
  assert (currentStaticIndex s = 0 \/ currentStaticIndex s = 1 \/
          currentStaticIndex s = 2 \/ currentStaticIndex s = 3 \/
          currentStaticIndex s = 4 \/ currentStaticIndex s = 5)
    as [-> | [-> | [-> | [-> | [-> | ->]]]]] by lia;
    vm_compute; repeat split; discriminate.
Qed.

(** X17 after three dwell boundaries ("P10 LED" comes next). *)
Lemma X17_witness :
  let s := run (polled 3000 3) (state_after setup globals) in
  staticTexts_at (currentStaticIndex s) = "P10 LED" /\
  2 * static_x (staticTexts_at (currentStaticIndex s))
  = dmd_width - 6 * strlen (staticTexts_at (currentStaticIndex s)).
Proof.
  split; [vm_compute; reflexivity|].
  apply (X17_canned_strings_fit
           (run (polled 3000 3) (state_after setup globals))
           (Reachable_run _ _ reach_setup)).
Defined.

(** The dwell test on the next pass of a regular polling. *)
Lemma polled_dwell_due (period q : Z) (n : nat) :
  0 < period -> period * q = 3000 ->
  let s := run (polled period n) (state_after setup globals) in
  let N := Z.of_nat n in
  dwell_due (to_ulong (period * (N + 1))) s = (q <=? N mod q + 1).
Proof.
  intros Hp Hq s N. assert (Hq0 : 0 < q) by nia.
  destruct (polled_run_state period q n Hp Hq) as (Htimer & _).
  fold s N in Htimer.
  pose proof (Z.div_mod N q ltac:(lia)) as Hdm.
  pose proof (Z.mod_pos_bound N q Hq0) as Hr.
  unfold dwell_due. rewrite Htimer. unfold ulong_sub, to_ulong.
  rewrite <- Zminus_mod.
  replace (period * (N + 1) - 3000 * (N / q))
    with (period * (N mod q + 1)) by nia.
  rewrite Z.mod_small.
  - destruct (q <=? N mod q + 1) eqn:E; to_prop.
    + apply Z.leb_le. nia.
    + apply Z.leb_gt. nia.
  - unfold ULONG_MOD. split; [nia|].
    apply Z.le_lt_trans with 3000; [nia | reflexivity].
Qed.

(** The mode is 0 during the first five of every fifteen dwells. *)
Lemma static_mode_dwells (D : Z) :
  0 <= D -> ((D / 5) mod 3 =? 0) = (D mod 15 <? 5).
Proof.
  intros HD.
  pose proof (Z.div_mod D 15 ltac:(lia)) as Hdm.
  pose proof (Z.mod_pos_bound D 15 ltac:(lia)) as Hr.
  pose proof (Z.div_mod (D mod 15) 5 ltac:(lia)) as Hdm5.
  pose proof (Z.mod_pos_bound (D mod 15) 5 ltac:(lia)) as Hr5.
  assert (Hq5 : 0 <= D mod 15 / 5 < 3).
  { split; [apply Z.div_pos; lia | apply Z.div_lt_upper_bound; lia]. }
  assert (Hdiv : D / 5 = 3 * (D / 15) + D mod 15 / 5).
  { symmetry. apply Z.div_unique with ((D mod 15) mod 5); lia. }
  assert (Hmod : (D / 5) mod 3 = D mod 15 / 5).
  { symmetry. apply Z.mod_unique with (D / 15); lia. }
  rewrite Hmod.
  destruct (D mod 15 <? 5) eqn:E; to_prop.
  - apply Z.eqb_eq. apply Z.div_small. lia.
  - apply Z.eqb_neq. intros H0. rewrite H0 in Hdm5. lia.
Qed.

(** X18.  Polled at a fixed period that divides 3000 ms, the rotation
    cursor after [n] passes is determined by the number D of dwells that
    have passed: every 15 dwells contain 5 dwells of static-rotation mode,
    each of which moves the cursor by one, so the cursor is
    (5 * (D / 15) + min 5 (D mod 15)) mod 6. *)
Theorem X18_rotation_cursor_under_polling (period q : Z) (n : nat) :
  0 < period -> period * q = 3000 ->
  let s := run (polled period n) (state_after setup globals) in
  let D := Z.of_nat n / q in
  currentStaticIndex s = (5 * (D / 15) + Z.min 5 (D mod 15)) mod 6.
Proof.
  intros Hp Hq. assert (Hq0 : 0 < q) by nia. cbv zeta.
  induction n as [|n IH].
  - simpl. rewrite Zdiv_0_l. reflexivity.
  - pose proof (polled_dwell_due period q n Hp Hq) as Hdue.
    destruct (polled_run_state period q n Hp Hq) as (_ & _ & Hmode).
    cbv zeta in Hdue, Hmode.
    rewrite polled_succ, run_app. cbn [run].
    set (s := run (polled period n) (state_after setup globals)) in *.
    set (N := Z.of_nat n) in *.
    replace (Z.of_nat (S n)) with (N + 1) by lia.
    assert (HN : 0 <= N) by lia.
    assert (HD : 0 <= N / q) by (apply Z.div_pos; lia).
    pose proof (Z.mod_pos_bound N q Hq0) as Hr.
    destruct (div_mod_succ N q Hq0 HN) as (Hwrap & Hstay).
    pose proof (loop_control (to_ulong (period * (N + 1)))
                  (to_ulong (period * (N + 1))) s) as Hloop.
    cbv zeta in Hloop. rewrite Hdue in Hloop.
    destruct (q <=? N mod q + 1) eqn:E; to_prop.
    + destruct Hloop as (_ & _ & _ & ->).
      rewrite (Hwrap ltac:(lia)), Hmode, IH.
      rewrite static_mode_dwells by exact HD.
      set (D := N / q) in *.
      pose proof (Z.div_mod D 15 ltac:(lia)) as Hdm.
      pose proof (Z.mod_pos_bound D 15 ltac:(lia)) as Hr15.
      pose proof (Z.mod_pos_bound (5 * (D / 15) + Z.min 5 (D mod 15)) 6 ltac:(lia)) as Hc.
      unfold staticTextCount.
      destruct (Z.eq_dec (D mod 15) 14) as [H14 | H14].
      * assert (Hd' : (D + 1) / 15 = D / 15 + 1).
        { symmetry. apply Z.div_unique with 0; lia. }
        assert (Hm' : (D + 1) mod 15 = 0).
        { symmetry. apply Z.mod_unique with (D / 15 + 1); lia. }
        rewrite Hd', Hm', H14.
        change (14 <? 5) with false. cbv iota.
        f_equal. lia.
      * assert (Hd' : (D + 1) / 15 = D / 15).
        { symmetry. apply Z.div_unique with (D mod 15 + 1); lia. }
        assert (Hm' : (D + 1) mod 15 = D mod 15 + 1).
        { symmetry. apply Z.mod_unique with (D / 15); lia. }
        rewrite Hd', Hm'.
        destruct (D mod 15 <? 5) eqn:E5; to_prop.
        -- rewrite Z.rem_mod_nonneg by lia.
           rewrite Zplus_mod_idemp_l. f_equal. lia.
        -- f_equal. lia.
    + destruct Hloop as (_ & _ & _ & ->).
      rewrite (Hstay ltac:(lia)). exact IH.
Qed.

(** X18 polled every 10 ms for 48 s: 16 dwells have passed, the mode is 0
    again and the cursor has gone once round the six strings. *)
Lemma X18_witness :
  currentStaticIndex (run (polled 10 4800) (state_after setup globals))
  = (5 * (4800 / 300 / 15) + Z.min 5 ((4800 / 300) mod 15)) mod 6.
Proof.
  apply (X18_rotation_cursor_under_polling 10 300 4800); lia.
Defined.

(** X19.  The scroll state of the stand-alone variant is tidy in every
    reachable state: while the text does not scroll the position is 0, and
    the position is always even, so that the scrolling text reaches the
    threshold -294 exactly before it restarts at 64. *)
Theorem X19_scroll_position_is_even_and_zero_when_idle s :
  Reachable s ->
  (isScrolling s = false -> scrollPosition s = 0) /\
  scrollPosition s mod 2 = 0 /\
  (isScrolling s = true -> textMode s = 1 /\ -294 <= scrollPosition s <= 64).
Proof.
  intros Hs.
  assert (Htidy : (isScrolling s = false -> scrollPosition s = 0) /\
                  scrollPosition s mod 2 = 0).
  { induction Hs as [|s currentTime millis _ IH].
    - vm_compute. split; reflexivity.
    - rewrite simple_loop_state.
      set (s1 := state_after (dwell_block currentTime millis) s).
      assert (H1 : (isScrolling s1 = false -> scrollPosition s1 = 0) /\
                   scrollPosition s1 mod 2 = 0).
      { unfold s1. destruct (dwell_due currentTime s) eqn:Hd.
        - rewrite dwell_block_state by exact Hd.
          cbn [isScrolling scrollPosition]. destruct IH as (Hidle & Heven).
          destruct (5 <=? cycleCount s + 1); [split; reflexivity|].
          destruct (textMode s =? 1); cbn [andb].
          + destruct (isScrolling s) eqn:Hon; cbn [negb].
            * split; [discriminate | exact Heven].
            * split; [discriminate | reflexivity].
          + split; assumption.
        - unfold state_after. rewrite dwell_block_idle by exact Hd. exact IH. }
      destruct H1 as (Hidle1 & Heven1). unfold state_after.
      destruct (scroll_due currentTime s1) eqn:Hd.
      + rewrite scroll_block_due by exact Hd.
        cbn [fst isScrolling scrollPosition set_scrollPosition set_lastUpdate].
        assert (Hon : isScrolling s1 = true).
        { unfold scroll_due in Hd. apply andb_true_iff in Hd. apply Hd. }
        split; [rewrite Hon; discriminate|].
        destruct (_ <? _); [reflexivity|].
        replace (scrollPosition s1 - 2) with (scrollPosition s1 + (-1) * 2) by lia.
        rewrite Z.mod_add by lia. exact Heven1.
      + rewrite scroll_block_idle by exact Hd. split; assumption. }
  destruct Htidy as (Hidle & Heven).
  split; [exact Hidle|]. split; [exact Heven|].
  intros Hon. destruct (Reachable_inv s Hs) as (_ & _ & _ & Hscr).
  destruct (Hscr Hon) as (Hm & Hb). rewrite scrollText_width in Hb.
  split; [exact Hm | exact Hb].
Qed.

(** X19 in scroll mode, one dwell and three scroll steps after the start of
    the scrolling. *)
Lemma X19_witness :
  let s := run [18000; 18100; 18200]
             (run (polled 3000 5) (state_after setup globals)) in
  isScrolling s = true /\ scrollPosition s = 58 /\ scrollPosition s mod 2 = 0.
Proof.
  split; [vm_compute; reflexivity|]. split; [vm_compute; reflexivity|].
  apply (X19_scroll_position_is_even_and_zero_when_idle
           (run [18000; 18100; 18200]
              (run (polled 3000 5) (state_after setup globals)))
           (Reachable_run _ _ (Reachable_run _ _ reach_setup))).
Defined.

(** The output of a pass: the dwell timer, the scroll timer, the scan, the
    status line if it is due, the wait. *)
Lemma simple_loop_output s (currentTime millis : Z) :
  let s' := state_after (loop currentTime millis) s in
  output_of (loop currentTime millis) s =
  (output_of (dwell_block currentTime millis) s ++
   output_of (scroll_block currentTime)
     (state_after (dwell_block currentTime millis) s)) ++
  ScanDisplayBySPI ::
  (if currentTime mod 5000 <? 50
   then [SerialPrintln ("Aktif mod: " +:+ String_of_int (textMode s')
                        +:+ " | Yazı: " +:+ getCurrentDisplayText s')]
   else [])
  ++ [Delay 10].
Proof.
  intros s'. unfold s'. rewrite simple_loop_state.
  unfold loop. rewrite !output_of_seq.
  rewrite <- app_assoc. f_equal. f_equal.
  unfold output_of, state_after, when, ifelse, emit, skip.
  destruct (currentTime mod 5000 <? 50); reflexivity.
Qed.

(** X20.  Every pass of [loop] ends with the panel scan and the 10 ms wait,
    with a status line in between exactly when the clock reading modulo
    5000 is below 50; the line reports the mode and the text as they are
    after the pass, and nothing after the timers' part draws. *)
Theorem X20_status_line_reports_state_after_pass s (currentTime millis : Z) :
  let s' := state_after (loop currentTime millis) s in
  let line := "Aktif mod: " +:+ String_of_int (textMode s') +:+ " | Yazı: "
              +:+ getCurrentDisplayText s' in
  exists body,
    draws body = draws (output_of (loop currentTime millis) s) /\
    output_of (loop currentTime millis) s =
      body ++ ScanDisplayBySPI ::
      (if currentTime mod 5000 <? 50 then [SerialPrintln line] else [])
      ++ [Delay 10].
Proof.
  intros s' line.
  exists (output_of (dwell_block currentTime millis) s ++
          output_of (scroll_block currentTime)
            (state_after (dwell_block currentTime millis) s)).
  split.
  - rewrite simple_loop_draws, draws_app. reflexivity.
  - apply simple_loop_output.
Qed.

(** X21.  On a dwell boundary in static-rotation mode the cursor is
    advanced before the status line is built: when the line is due on such
    a pass (and the mode does not change), the panel shows the string under
    the cursor while the line names the next one. *)
Theorem X21_status_line_names_the_next_string s (currentTime millis : Z) :
  Reachable s -> textMode s = 0 -> dwell_due currentTime s = true ->
  cycleCount s + 1 < 5 -> currentTime mod 5000 < 50 ->
  let i := currentStaticIndex s in
  draws (output_of (loop currentTime millis) s) =
    [(static_x (staticTexts_at i), static_y, staticTexts_at i)] /\
  In (SerialPrintln ("Aktif mod: 0 | Yazı: " +:+ staticTexts_at ((i + 1) mod 6)))
     (output_of (loop currentTime millis) s).
Proof.
  intros Hs Hmode Hdue Hcount Hdiag i.
  destruct (Reachable_inv s Hs) as (_ & _ & Hi & Hscr).
  unfold staticTextCount in Hi.
  assert (Hidle : isScrolling s = false).
  { destruct (isScrolling s); [|reflexivity].
    destruct (Hscr eq_refl) as (Hm & _). rewrite Hmode in Hm. discriminate. }
  set (s1 := state_after (dwell_block currentTime millis) s).
  assert (Hs1 : s1 = mkState false (lastUpdate s) currentTime (scrollPosition s)
                             0 ((i + 1) mod 6) (cycleCount s + 1)).
  { unfold s1. rewrite dwell_block_state by exact Hdue. cbv zeta.
    rewrite Hmode, Hidle.
    replace (5 <=? cycleCount s + 1) with false by (symmetry; apply Z.leb_gt; lia).
    cbn [Z.eqb]. unfold staticTextCount. fold i.
    rewrite Z.rem_mod_nonneg by lia. reflexivity. }
  assert (Hquiet : scroll_due currentTime s1 = false).
  { apply scroll_due_not_scrolling. rewrite Hs1. reflexivity. }
  split.
  - rewrite simple_loop_draws, dwell_block_draws by exact Hdue.
    rewrite Hmode. cbv zeta. fold s1 i.
    unfold output_of. rewrite scroll_block_idle by exact Hquiet. reflexivity.
  - rewrite simple_loop_output. rewrite simple_loop_state. fold s1.
    unfold state_after at 1 2. rewrite scroll_block_idle by exact Hquiet.
    cbn [fst]. apply Z.ltb_lt in Hdiag. rewrite Hdiag.
    apply in_or_app. right. right. left.
    rewrite Hs1. reflexivity.
Qed.

(** X21 on a first dwell boundary met 5 s after the start: "MERHABA" is
    drawn, the line names "DUNYA!". *)
Lemma X21_witness :
  let s := state_after setup globals in
  draws (output_of (loop 5000 5000) s) = [(11, 4, "MERHABA")] /\
  In (SerialPrintln "Aktif mod: 0 | Yazı: DUNYA!") (output_of (loop 5000 5000) s).
Proof.
  apply (X21_status_line_names_the_next_string
           (state_after setup globals) 5000 5000 reach_setup
           eq_refl eq_refl eq_refl eq_refl).
Defined.

End SimpleCoverage.
